(** * httpserver: a shallow embedding of the decorator layer

    The Go package wraps a third-party router: every verb registration
    stores [f (recoverPanic (chainMiddlewares handler))] in the route
    table, and a handful of helpers write responses.  The development
    embeds the two source files [httpserver.go] and [group.go].

    Go strings are byte sequences and are embedded as [string]; a Go
    [map] is a [gmap]; handlers mutate the response writer, the request
    and the logger, which is written out as explicit state passing over
    a record [world].

    Part I holds the definitions, Part II the lemmas and theorems. *)

From Stdlib Require Import ZArith Ascii String List Lia DecimalString Permutation.
From stdpp Require Import base option list gmap strings sorting.

Local Open Scope Z_scope.

(** Appending to a string literal computes. *)
#[local] Arguments String.append !_ _ / : simpl nomatch.

(** * Part I: definitions *)

(** ** Byte strings *)

Module Str.

(** [drop n s] is the Go slice [s[n:]] for [n <= len(s)]. *)
Fixpoint drop (n : nat) (s : string) : string :=
  match n, s with
  | O, _ => s
  | S n', String _ s' => drop n' s'
  | S _, EmptyString => EmptyString
  end.

(** [strings.Contains(s, string(c))] for a single byte [c]. *)
Fixpoint contains (c : ascii) (s : string) : bool :=
  match s with
  | EmptyString => false
  | String d s' => if decide (d = c) then true else contains c s'
  end.

(** [strings.Cut(s, string(sep))]: the text before the first [sep] and
    the text after it; the whole of [s] and [""] when there is none. *)
Fixpoint cut (sep : ascii) (s : string) : string * string :=
  match s with
  | EmptyString => (EmptyString, EmptyString)
  | String d s' =>
      if decide (d = sep) then (EmptyString, s')
      else let (a, b) := cut sep s' in (String d a, b)
  end.

(** The pieces between the occurrences of [sep], in order: the values
    the first result of [strings.Cut] takes when a loop keeps cutting
    the remainder. *)
Fixpoint pieces (sep : ascii) (s : string) : list string :=
  match s with
  | EmptyString => [EmptyString]
  | String d s' =>
      if decide (d = sep) then EmptyString :: pieces sep s'
      else match pieces sep s' with
           | p :: ps => String d p :: ps
           | [] => [String d EmptyString]
           end
  end.

End Str.

(** ** encoding/hex *)

Module hex.

(** The digit tables of [encoding/hex] and of [net/url]. *)
Definition hextable : string := "0123456789abcdef".
Definition upperhex : string := "0123456789ABCDEF".

Definition digit (table : string) (i : N) : ascii :=
  match String.get (N.to_nat i) table with
  | Some c => c
  | None => "0"%char
  end.

(** [c >> 4] and [c & 15] of a byte. *)
Definition hi (c : ascii) : N := N.shiftr (N_of_ascii c) 4.
Definition lo (c : ascii) : N := N.land (N_of_ascii c) 15.

(** [hex.Encode]: two lower-case digits per byte. *)
Fixpoint Encode (src : list ascii) : string :=
  match src with
  | [] => EmptyString
  | c :: src' =>
      String (digit hextable (hi c)) (String (digit hextable (lo c)) (Encode src'))
  end.

(** [ishex] and [unhex] of [net/url]. *)
Definition unhex (c : ascii) : option N :=
  let n := N_of_ascii c in
  if ((48 <=? n) && (n <=? 57))%N then Some (n - 48)%N
  else if ((97 <=? n) && (n <=? 102))%N then Some (n - 97 + 10)%N
  else if ((65 <=? n) && (n <=? 70))%N then Some (n - 65 + 10)%N
  else None.

Definition ishex (c : ascii) : bool := bool_decide (is_Some (unhex c)).

End hex.

(** ** github.com/google/uuid *)

Module uuid.

(** [type UUID [16]byte] *)
Record UUID := mkUUID {
  bytes : list ascii;
  bytes_len : length bytes = 16%nat
}.

(** The Go slice [u[i:j]]. *)
Definition slice (u : list ascii) (i j : nat) : list ascii :=
  take (j - i) (drop i u).

(** [UUID.String]: the form xxxxxxxx-xxxx-xxxx-xxxx-xxxxxxxxxxxx. *)
Definition String_ (u : UUID) : string :=
  hex.Encode (slice (bytes u) 0 4) +:+ "-" +:+
  hex.Encode (slice (bytes u) 4 6) +:+ "-" +:+
  hex.Encode (slice (bytes u) 6 8) +:+ "-" +:+
  hex.Encode (slice (bytes u) 8 10) +:+ "-" +:+
  hex.Encode (slice (bytes u) 10 16).

End uuid.

(** ** net/url: query strings *)

Module url.

(** [type Values map[string][]string] *)
Abbreviation Values := (gmap string (list string)).

(** [v.Get(key)]: the first value of the key, [""] when there is
    none. *)
Definition Get (v : Values) (key : string) : string :=
  match v !! key with
  | Some (x :: _) => x
  | _ => ""
  end.

(** [v.Add(key, value)]: [v[key] = append(v[key], value)]. *)
Definition Add (v : Values) (key value : string) : Values :=
  <[key := default [] (v !! key) ++ [value]]> v.

Definition between (a b : N) (c : ascii) : bool :=
  ((a <=? N_of_ascii c) && (N_of_ascii c <=? b))%N.

(** [shouldEscape(c, encodeQueryComponent)]: letters, digits and the
    marks - _ . ~ stay, everything else (the reserved characters too, in
    this mode) is escaped. *)
Definition shouldEscape (c : ascii) : bool :=
  if between 97 122 c || between 65 90 c || between 48 57 c then false
  else if bool_decide (c ∈ ["-"; "_"; "."; "~"]%char) then false
  else true.

Definition escape_byte (c : ascii) : string :=
  if decide (c = " "%char) then "+"
  else if shouldEscape c then
    String "%" (String (hex.digit hex.upperhex (hex.hi c))
               (String (hex.digit hex.upperhex (hex.lo c)) EmptyString))
  else String c EmptyString.

(** [QueryEscape]: [escape(s, encodeQueryComponent)]. *)
Fixpoint QueryEscape (s : string) : string :=
  match s with
  | EmptyString => EmptyString
  | String c s' => escape_byte c +:+ QueryEscape s'
  end.

(** [QueryUnescape]: [unescape(s, encodeQueryComponent)].  A percent
    sign that is not followed by two hex digits anywhere in [s] is an
    [EscapeError] ([None]); otherwise %XY becomes the byte
    [unhex(X)<<4 | unhex(Y)] and a plus sign becomes a space. *)
Fixpoint QueryUnescape (s : string) : option string :=
  match s with
  | EmptyString => Some EmptyString
  | String c s' =>
      if decide (c = "%"%char) then
        match s' with
        | String a (String b s'') =>
            match hex.unhex a, hex.unhex b with
            | Some x, Some y =>
                String (ascii_of_N (N.lor (N.shiftl x 4) y)) <$> QueryUnescape s''
            | _, _ => None
            end
        | _ => None
        end
      else if decide (c = "+"%char) then String " " <$> QueryUnescape s'
      else String c <$> QueryUnescape s'
  end.

(** One turn of the loop of [parseQuery] on the piece [key] cut off at
    the next ampersand: a piece with a semicolon, an empty piece and a
    piece whose key or value does not unescape are skipped (the error is
    remembered, the loop goes on); otherwise the pair is appended. *)
Definition parse_pair (m : Values) (key : string) : Values :=
  if Str.contains ";" key then m
  else if decide (key = EmptyString) then m
  else
    let (k, v) := Str.cut "=" key in
    match QueryUnescape k with
    | None => m
    | Some k1 =>
        match QueryUnescape v with
        | None => m
        | Some v1 => Add m k1 v1
        end
    end.

(** [ParseQuery(query)], the map only: [URL.Query] drops the error. *)
Definition ParseQuery (query : string) : Values :=
  foldl parse_pair ∅ (Str.pieces "&" query).

(** The text [Encode] appends to its buffer for one value of a key. *)
Definition write_pair (keyEscaped : string) (buf value : string) : string :=
  (if decide (buf = EmptyString) then buf else buf +:+ "&")
    +:+ keyEscaped +:+ "=" +:+ QueryEscape value.

(** [v.Encode()]: "key=value" pairs joined by ampersands, keys sorted
    as byte strings, each key's values in their order. *)
Definition Encode (v : Values) : string :=
  foldl (λ buf k, foldl (write_pair (QueryEscape k)) buf (default [] (v !! k)))
        EmptyString
        (merge_sort String.le (map fst (map_to_list v))).

End url.

(** ** net/http: headers, requests and response writers *)

(** [http.Header] is [map[string][]string].  The keys used by the package
    ("Request-Id", "X-Request-Id", "Date", "Content-Type") are already in
    canonical MIME form, so canonicalisation is the identity on them. *)
Module Header.

Abbreviation t := (gmap string (list string)).

(** [h.Get(key)]: the first value stored under the key, [""] when the
    key is missing or has no value. *)
Definition Get (h : t) (key : string) : string :=
  match h !! key with
  | Some (v :: _) => v
  | _ => ""
  end.

(** [h.Set(key, value)]: replaces whatever is stored with the single
    value. *)
Definition Set_ (h : t) (key value : string) : t :=
  <[key := [value]]> h.

End Header.

Record URL := mkURL { Path : string; RawQuery : string }.

(** [u.Query()] *)
Definition Query (u : URL) : url.Values := url.ParseQuery (RawQuery u).

Record Request := mkRequest {
  Method : string;
  req_URL : URL;
  req_Header : Header.t
}.

Definition StatusOK : Z := 200.
Definition StatusInternalServerError : Z := 500.

(** The methods of [http.ResponseWriter] that change what the client
    receives; a writer handed in from outside is observed through the
    calls it gets, in order. *)
Inductive call :=
| WriteHeader_call (statusCode : Z)
| Write_call (body : string).

(** A value of interface type [http.ResponseWriter]: either a writer of
    some other package (the connection's own, a test recorder), which
    owns its header map and sees the calls, or this package's
    [*responseWriter], which embeds another writer and records the
    status code and the two request ids. *)
Inductive ResponseWriter :=
| Foreign (header : Header.t) (calls : list call)
| responseWriter (embedded : ResponseWriter)
                 (statusCode : Z) (requestID xRequestID : string).

(** [w.Header()]: the embedded writer's method is promoted. *)
Fixpoint Header_of (w : ResponseWriter) : Header.t :=
  match w with
  | Foreign h _ => h
  | responseWriter e _ _ _ => Header_of e
  end.

Fixpoint calls_of (w : ResponseWriter) : list call :=
  match w with
  | Foreign _ cs => cs
  | responseWriter e _ _ _ => calls_of e
  end.

(** [w.Header().Set(key, value)] *)
Fixpoint Header_Set (w : ResponseWriter) (key value : string) : ResponseWriter :=
  match w with
  | Foreign h cs => Foreign (Header.Set_ h key value) cs
  | responseWriter e sc rid xid => responseWriter (Header_Set e key value) sc rid xid
  end.

(** [w.WriteHeader(statusCode)]: [*responseWriter] overrides the method
    and remembers the code before delegating. *)
Fixpoint WriteHeader (w : ResponseWriter) (statusCode : Z) : ResponseWriter :=
  match w with
  | Foreign h cs => Foreign h (cs ++ [WriteHeader_call statusCode])
  | responseWriter e _ rid xid =>
      responseWriter (WriteHeader e statusCode) statusCode rid xid
  end.

(** [w.Write(body)], promoted for [*responseWriter]: the call made.
    Whether the writer takes the bytes, and the error it returns when
    it does not, is the writer's matter; the one caller that looks at
    the error is the JSON encoder. *)
Fixpoint Write (w : ResponseWriter) (body : string) : ResponseWriter :=
  match w with
  | Foreign h cs => Foreign h (cs ++ [Write_call body])
  | responseWriter e sc rid xid => responseWriter (Write e body) sc rid xid
  end.

(** [newResponseWriter]: "default if not set is 200". *)
Definition newResponseWriter (w : ResponseWriter) (reqID xReqID : string) : ResponseWriter :=
  responseWriter w StatusOK reqID xReqID.

(** The writer a [*responseWriter] embeds; any other writer itself. *)
Definition embedded_of (w : ResponseWriter) : ResponseWriter :=
  match w with
  | Foreign _ _ => w
  | responseWriter e _ _ _ => e
  end.

(** The bodies handed to [Write], concatenated. *)
Fixpoint body_of (cs : list call) : string :=
  match cs with
  | [] => EmptyString
  | Write_call b :: cs' => b +:+ body_of cs'
  | WriteHeader_call _ :: cs' => body_of cs'
  end.

(** The status of the response as a client receives it from a writer
    of the HTTP server: the first call decides, a [Write] that comes
    before any [WriteHeader] sending 200. *)
Definition status_sent (cs : list call) : option Z :=
  match cs with
  | [] => None
  | WriteHeader_call c :: _ => Some c
  | Write_call _ :: _ => Some StatusOK
  end.

(** ** The state a handler acts on *)

(** What the process prints: lines through the server's [log.Logger],
    and the goroutine's stack through [debug.PrintStack]. *)
Inductive output :=
| Printf (line : string)
| PrintStack.

(** One request being served.  [rfc1123] and [rfc3339] are [time.Now()]
    in the two layouts the package formats it with, and [fresh] is the
    value [uuid.New()] returns; package [time] and the random source are
    outside the package. *)
Record world := mkWorld {
  resp : ResponseWriter;
  req : Request;
  out : list output;
  rfc1123 : string;
  rfc3339 : string;
  fresh : uuid.UUID
}.

Definition set_resp (st : world) (w : ResponseWriter) : world :=
  mkWorld w (req st) (out st) (rfc1123 st) (rfc3339 st) (fresh st).

Definition set_req (st : world) (r : Request) : world :=
  mkWorld (resp st) r (out st) (rfc1123 st) (rfc3339 st) (fresh st).

Definition print (st : world) (o : output) : world :=
  mkWorld (resp st) (req st) (out st ++ [o]) (rfc1123 st) (rfc3339 st) (fresh st).

(** A call either returns or panics with a value, one that [recover]
    yields as non-nil; either way it leaves a state behind. *)
Inductive result :=
| Return (st : world)
| Panic (v : string) (st : world).

(** [http.HandlerFunc], [Middleware], and [httprouter]'s [Params] and
    [Handle]. *)
Definition HandlerFunc := world → result.
Definition Middleware := HandlerFunc → HandlerFunc.
Record Param := mkParam { Key : string; Value : string }.
Abbreviation Params := (list Param).
Definition Handle := Params → world → result.

(** ** The package *)

(** Go's [error]: the message. *)
Definition error := string.

(** The part of [html/template] the package calls.  A [Template] value
    stands for the [*Template] together with the name space it shares
    with its associated templates; [Parse] and [ExecuteTemplate] fail
    with an error, [ExecuteTemplate] otherwise yields what it wrote. *)
Class TemplateEngine (data : Type) := {
  Template : Type;
  FuncMap : Type;
  template_New : string → Template;
  Funcs : Template → FuncMap → Template;
  Parse : Template → string → Template + error;
  New : Template → string → Template;
  Execute : Template → data → string + error;
  ExecuteTemplate : Template → string → data → string + error
}.

(** *** A fragment of html/template

    An instance of [TemplateEngine] for templates made of literal text
    without markup and of actions [{{template "name"}}].  On such
    templates the escaping pass of [html/template] changes nothing, and
    executing is copying text and following inclusions.  A text outside
    the fragment is reported as an error by [parse]. *)
Module fragment.

Inductive node :=
| TextNode (text : string)
| TemplateNode (name : string).

(** A template: its name, the functions declared, and the name space
    it shares with its associated templates.  A name created by [New]
    and not parsed yet has no tree. *)
Record tmpl := mkTmpl {
  tmpl_name : string;
  tmpl_funcs : list string;
  tmpl_set : gmap string (option (list node))
}.

Definition is_space (c : ascii) : bool :=
  bool_decide (c ∈ [" "; "009"; "013"; "010"]%char).

(** The text before the next left delimiter, and what follows the
    delimiter when there is one. *)
Fixpoint lex_text (s : string) : string * option string :=
  match s with
  | EmptyString => (EmptyString, None)
  | String c s' =>
      match s' with
      | String d rest =>
          if bool_decide (c = "{"%char) && bool_decide (d = "{"%char)
          then (EmptyString, Some rest)
          else let (t, r) := lex_text s' in (String c t, r)
      | EmptyString => (String c EmptyString, None)
      end
  end.

(** The inside of an action up to the right delimiter, and what
    follows the delimiter; [None] for an unclosed action. *)
Fixpoint lex_action (s : string) : option (string * string) :=
  match s with
  | EmptyString => None
  | String c s' =>
      match s' with
      | String d rest =>
          if bool_decide (c = "}"%char) && bool_decide (d = "}"%char)
          then Some (EmptyString, rest)
          else match lex_action s' with
               | Some (a, r) => Some (String c a, r)
               | None => None
               end
      | EmptyString => None
      end
  end.

Fixpoint skip_spaces (s : string) : string :=
  match s with
  | String c s' => if is_space c then skip_spaces s' else s
  | EmptyString => EmptyString
  end.

Fixpoint strip_prefix (p s : string) : option string :=
  match p, s with
  | EmptyString, _ => Some s
  | String a p', String b s' => if decide (a = b) then strip_prefix p' s' else None
  | String _ _, EmptyString => None
  end.

(** A name up to its closing quote; escapes and raw newlines are
    outside the fragment. *)
Fixpoint quoted (s : string) : option (string * string) :=
  match s with
  | EmptyString => None
  | String c s' =>
      if decide (c = "034"%char) then Some (EmptyString, s')
      else if bool_decide (c ∈ ["\"; "010"]%char) then None
      else match quoted s' with
           | Some (n, r) => Some (String c n, r)
           | None => None
           end
  end.

(** The inside of an action: the keyword, at least one space, the
    quoted name. *)
Definition parse_action (body : string) : option node :=
  match strip_prefix "template" (skip_spaces body) with
  | Some (String c b1) =>
      if is_space c then
        match skip_spaces b1 with
        | String q b2 =>
            if decide (q = "034"%char) then
              match quoted b2 with
              | Some (name, b3) =>
                  if decide (skip_spaces b3 = EmptyString)
                  then Some (TemplateNode name) else None
              | None => None
              end
            else None
        | EmptyString => None
        end
      else None
  | _ => None
  end.

Definition text_node (t : string) : option (list node) :=
  if Str.contains "<" t then None
  else Some (if decide (t = EmptyString) then [] else [TextNode t]).

(** Text, action, text, ...; each turn consumes at least the two bytes
    of a delimiter, so the length of the text bounds the turns. *)
Fixpoint parse_nodes (fuel : nat) (s : string) : option (list node) :=
  match fuel with
  | O => None
  | S fuel' =>
      let (t, r) := lex_text s in
      match text_node t, r with
      | None, _ => None
      | Some ns, None => Some ns
      | Some ns, Some r1 =>
          match lex_action r1 with
          | None => None
          | Some (a, r2) =>
              match parse_action a, parse_nodes fuel' r2 with
              | Some n, Some ns' => Some (ns ++ n :: ns')
              | _, _ => None
              end
          end
      end
  end.

Definition parse (s : string) : option (list node) :=
  parse_nodes (S (String.length s)) s.

(** [maxExecDepth] of [text/template]. *)
Definition maxExecDepth : N := 100000.

(** Executing the template [name]: [fuel] is the number of nested
    inclusions still allowed. *)
Fixpoint exec (fuel : nat) (set : gmap string (option (list node))) (name : string) : string + error :=
  match set !! name with
  | None => inr ("template " +:+ name +:+ " not defined")
  | Some None => inr (name +:+ " is an incomplete or empty template")
  | Some (Some nodes) =>
      foldl (λ acc n,
               match acc with
               | inr err => inr err
               | inl written =>
                   match n with
                   | TextNode t => inl (written +:+ t)
                   | TemplateNode callee =>
                       match fuel with
                       | O => inr "exceeded maximum template depth"
                       | S fuel' =>
                           match exec fuel' set callee with
                           | inl more => inl (written +:+ more)
                           | inr err => inr err
                           end
                       end
                   end
               end) (inl EmptyString) nodes
  end.

(** [t.Parse(text)] for a template that has no tree yet, which is how
    the package calls it: right after [template.New] or [t.New].
    Parsing over an existing tree follows rules of its own and is left
    out of the fragment. *)
Definition tmpl_Parse (t : tmpl) (text : string) : tmpl + error :=
  match tmpl_set t !! tmpl_name t with
  | Some (Some _) => inr "not in the modelled fragment of html/template"
  | _ =>
      match parse text with
      | None => inr "not in the modelled fragment of html/template"
      | Some nodes =>
          inl (mkTmpl (tmpl_name t) (tmpl_funcs t)
                 (<[tmpl_name t := Some nodes]> (tmpl_set t)))
      end
  end.

Definition tmpl_New (t : tmpl) (name : string) : tmpl :=
  mkTmpl name (tmpl_funcs t) (<[name := None]> (tmpl_set t)).

Definition tmpl_ExecuteTemplate {data : Type} (t : tmpl) (name : string) (_ : data) : string + error :=
  exec (N.to_nat maxExecDepth) (tmpl_set t) name.

Definition engine (data : Type) : TemplateEngine data := {|
  Template := tmpl;
  FuncMap := list string;
  template_New name := mkTmpl name [] {[ name := None ]};
  Funcs t m := mkTmpl (tmpl_name t) (tmpl_funcs t ++ m) (tmpl_set t);
  Parse := tmpl_Parse;
  New := tmpl_New;
  Execute t d := tmpl_ExecuteTemplate t (tmpl_name t) d;
  ExecuteTemplate := tmpl_ExecuteTemplate
|}.



End fragment.

(** *** The route table *)

(** [httprouter.Router], as far as the package uses it: the handles
    registered, each under its method and path pattern, oldest first. *)
Record route := mkRoute {
  route_method : string;
  route_path : string;
  route_handle : Handle
}.

Abbreviation Router := (list route).

Record Server := mkServer {
  handlers : Router;
  port : Z;
  middlewares : list Middleware
}.

(** A [Group] points to its server; the server's state is passed to
    the group's methods explicitly. *)
Record Group := mkGroup {
  prefix : string;
  group_middlewares : list Middleware
}.

(** An [interface{}] argument: a value of string kind ([string],
    [template.HTML]) or any other value, of a type [dyn]. *)
Inductive any (dyn : Type) :=
| of_string (s : string)
| of_dyn (x : dyn).

Arguments of_string {dyn} s.
Arguments of_dyn {dyn} x.

(** *** Sample values

    A request and the collaborators the package is handed, used to
    exercise the statements of Part II. *)

(** Modelled from the spec: [chainMiddlewares], whose file is not among
    the sources.  "Given a terminal handler and an ordered list of
    middleware, produce a single handler equivalent to applying the
    middlewares in the given order around the terminal handler (first
    middleware in the list is outermost)"; the server's chain starts
    with the server's own list, and a group "injects its own middleware
    list ahead of any per-route middleware". *)
Definition chainMiddlewares (handler : HandlerFunc) (mws : list Middleware) : HandlerFunc :=
  foldr (λ mw h, mw h) handler mws.

Definition Server_chain (s : Server) (handler : HandlerFunc) (mws : list Middleware) : HandlerFunc :=
  chainMiddlewares handler (middlewares s ++ mws).

Definition Group_chain (g : Group) (s : Server) (handler : HandlerFunc) (mws : list Middleware) : HandlerFunc :=
  chainMiddlewares handler (group_middlewares g ++ mws).

(** A file server over a directory without files: every request gets
    404. *)
Definition FileServer_empty (rootPath : string) : HandlerFunc :=
  λ st, Return (set_resp st (Write (WriteHeader (resp st) 404) "404 page not found")).

(** Two kinds of other values: integers, and channels, which [fmt]
    prints as an address and [encoding/json] refuses. *)
Inductive sample_value :=
| an_int (n : Z)
| a_channel.

Definition fmt_sample (x : sample_value) : string :=
  match x with
  | an_int n => DecimalString.NilZero.string_of_int (Z.to_int n)
  | a_channel => "0xc00001c0c0"
  end.

(** The bytes the encoder copies into a JSON string as they are. *)
Definition json_safe (c : ascii) : bool :=
  url.between 32 127 c && negb (bool_decide (c ∈ ["034"; "\"; "<"; ">"; "&"]%char)).

Fixpoint all_safe (s : string) : bool :=
  match s with
  | EmptyString => true
  | String c s' => json_safe c && all_safe s'
  end.

(** The encoder on the sample values; a string with a byte that needs
    an escape is outside the sample. *)
Definition json_sample (body : any sample_value) : string + error :=
  match body with
  | of_dyn (an_int n) => inl (DecimalString.NilZero.string_of_int (Z.to_int n))
  | of_dyn a_channel => inr "json: unsupported type: chan int"
  | of_string s =>
      if all_safe s then inl (String "034" s +:+ String "034" EmptyString)
      else inr "outside the sample"
  end.

Definition sample_uuid : uuid.UUID :=
  uuid.mkUUID
    ["018"; "052"; "086"; "120"; "154"; "188"; "077"; "239";
     "129"; "035"; "069"; "103"; "137"; "171"; "205"; "239"]%char eq_refl.

(** GET /users/7?lang=en, with no request id, answered on a writer of
    the HTTP server. *)
Definition sample_world : world :=
  mkWorld (Foreign ∅ [])
          (mkRequest "GET" (mkURL "/users/7" "lang=en") {[ "Accept" := ["*/*"] ]})
          []
          "Sat, 31 Oct 2026 09:00:00 UTC"
          "2026-10-31T09:00:00Z"
          sample_uuid.

(** A handler that panics before it writes anything. *)
Definition boom : HandlerFunc := λ st, Panic "boom" st.


(** [Write] of the HTTP server's writer, as to the error it returns: a
    write of no bytes is accepted, and once the status sent is 204 or
    304, which allow no body, a write is refused with
    [http.ErrBodyNotAllowed].  The errors of the connection are left
    out of the sample. *)
Definition ErrBodyNotAllowed : error :=
  "http: request method or response status code does not allow body".

Definition http_Write_error (w : ResponseWriter) (body : string) : option error :=
  match body, status_sent (calls_of w) with
  | String _ _, Some status =>
      if (status =? 204) || (status =? 304) then Some ErrBodyNotAllowed else None
  | _, _ => None
  end.

(** The first two checks [httprouter] makes on a registration: the
    pattern begins with a slash, and a method and pattern get one
    handle.  Its checks on wildcards are left out of the sample. *)
Definition sample_router_refuses (rt : Router) (method path : string) : option string :=
  match path with
  | String "/" _ =>
      if existsb (λ r, bool_decide (route_method r = method ∧ route_path r = path)) rt
      then Some ("a handle is already registered for path '" +:+ path +:+ "'")
      else None
  | _ => Some ("path must begin with '/' in path '" +:+ path +:+ "'")
  end.

(** A logging middleware that prints nothing. *)
Definition silent_log : Middleware := λ next, next.

Definition empty_server : Server := mkServer [] 8080 [].

(** The templates of the example: the main one includes the other. *)
Definition example_main : string :=
  "{{template " +:+ String "034" "frag" +:+ String "034" "}}".

Definition example_templates : gmap string string :=
  {[ "main" := example_main; "frag" := "X" ]}.




Definition newline : string := String "010" EmptyString.

Section Package.

(** Go values other than strings that callers pass as [interface{}],
    with what [fmt] prints for them under the verb %v. *)
Variable dyn : Type.
Variable fmt_v : dyn → string.

#[local] Abbreviation any := (any dyn).

(** [json.Marshal] with the encoder's options: the encoding, or the
    error for a value that cannot be encoded. *)
Variable json_Marshal : any → string + error.

(** The error [w.Write(body)] returns, [None] for [nil]: it is the
    writer's, which the package is handed. *)
Variable Write_error : ResponseWriter → string → option error.

Context {engine : TemplateEngine any}.

(** [fmt.Sprintf("%v", body)] *)
Definition Sprint_v (body : any) : string :=
  match body with
  | of_string s => s
  | of_dyn x => fmt_v x
  end.

(** [responseHeader]; [now] is [time.Now().Format(time.RFC1123)]. *)
Definition responseHeader (now : string) (w : ResponseWriter) (statusCode : Z) : ResponseWriter :=
  let w1 := Header_Set w "Date" now in
  match w1 with
  | Foreign _ _ => WriteHeader w1 StatusInternalServerError
  | responseWriter _ _ requestID xRequestID =>
      let w2 := Header_Set w1 "Request-Id" requestID in
      let w3 := Header_Set w2 "X-Request-Id" xRequestID in
      WriteHeader w3 statusCode
  end.

Definition Response (now : string) (w : ResponseWriter) (statusCode : Z) (body : string) : ResponseWriter :=
  Write (responseHeader now w statusCode) body.

(** [json.NewEncoder(w).Encode(body)]: the value is marshalled into a
    buffer first, and only a complete encoding, followed by a newline,
    is written to [w], with one [Write] whose error [Encode] returns. *)
Definition Encoder_Encode (w : ResponseWriter) (body : any) : ResponseWriter * option error :=
  match json_Marshal body with
  | inl b => (Write w (b +:+ newline), Write_error w (b +:+ newline))
  | inr err => (w, Some err)
  end.

Definition ResponseJSON (now : string) (w : ResponseWriter) (statusCode : Z) (body : any) : ResponseWriter * option error :=
  let w1 := Header_Set w "Content-Type" "application/json" in
  let w2 := responseHeader now w1 statusCode in
  Encoder_Encode w2 body.

Definition ResponseString (now : string) (w : ResponseWriter) (statusCode : Z) (body : any) : ResponseWriter :=
  Write (responseHeader now w statusCode) (Sprint_v body).

(** [f], up to the call of [next]: the state [next] is called in. *)
Definition f_enter (ps : Params) (st : world) : world :=
  let r := req st in
  let h0 := req_Header r in
  let h1 :=
    if bool_decide (Header.Get h0 "Request-Id" = "")
       && bool_decide (Header.Get h0 "X-Request-Id" = "")
    then Header.Set_ h0 "Request-Id" (uuid.String_ (fresh st)) else h0 in
  let h2 :=
    if bool_decide (Header.Get h1 "Request-Id" = "")
       && bool_decide (Header.Get h1 "X-Request-Id" ≠ "")
    then Header.Set_ h1 "Request-Id" (Header.Get h1 "X-Request-Id") else h1 in
  let u :=
    if bool_decide (0 < length ps)%nat then
      let urlValues :=
        foldl (λ v p, url.Add v (Key p) (Value p)) (Query (req_URL r)) ps in
      mkURL (Path (req_URL r)) (url.Encode urlValues)
    else req_URL r in
  let rw :=
    newResponseWriter (resp st)
      (Header.Get h2 "Request-Id") (Header.Get h2 "X-Request-Id") in
  set_resp (set_req st (mkRequest (Method r) u h2)) rw.

(** When [next] is done the wrapper [rw] is dropped; the caller of [f]
    goes on with the writer it passed in. *)
Definition f_leave (res : result) : result :=
  match res with
  | Return st => Return (set_resp st (embedded_of (resp st)))
  | Panic v st => Panic v (set_resp st (embedded_of (resp st)))
  end.

Definition f (next : HandlerFunc) : Handle :=
  λ ps st, f_leave (next (f_enter ps st)).

Definition panic_line (st : world) : string :=
  rfc3339 st +:+ " | httpserver | " +:+ "PANIC" +:+ " | " +:+ Method (req st)
    +:+ " | " +:+ Path (req_URL (req st)) +:+ " | "
    +:+ Header.Get (req_Header (req st)) "Request-Id" +:+ newline.

Definition panic_start (requestID : string) : string :=
  "☠️ ☠️ ☠️ ☠️ ☠️ ☠️  PANIC START (" +:+ requestID +:+ ") ☠️ ☠️ ☠️ ☠️ ☠️ ☠️".

Definition panic_end (requestID : string) : string :=
  "☠️ ☠️ ☠️ ☠️ ☠️ ☠️  PANIC END (" +:+ requestID +:+ ") ☠️ ☠️ ☠️ ☠️ ☠️ ☠️".

(** [recoverPanic]: the deferred function runs when [next] is done and
    acts only if [recover()] yields a value. *)
Definition recoverPanic (next : HandlerFunc) : HandlerFunc :=
  λ st,
    match next st with
    | Return st' => Return st'
    | Panic err st' =>
        let requestID := Header.Get (req_Header (req st')) "Request-Id" in
        let st1 :=
          set_resp st'
            (ResponseString (rfc1123 st') (resp st') StatusInternalServerError
               (of_string "httpserver got panic")) in
        let st2 := print st1 (Printf (panic_line st1)) in
        let st3 := print st2 (Printf (panic_start requestID)) in
        let st4 := print st3 PrintStack in
        let st5 := print st4 (Printf (panic_end requestID)) in
        Return st5
    end.

(** [RenderHTML] *)
Definition RenderHTML (tmplName tmpl : string) (data : any) (funcMap : list FuncMap) : string + error :=
  let t := foldl Funcs (template_New tmplName) funcMap in
  match Parse t tmpl with
  | inr err => inr err
  | inl t1 => Execute t1 data
  end.

(** The loop of [RenderMultiHTML] over the entries [range] yields: every
    name but the main one becomes an associated template. *)
Fixpoint attach (mainTmplName : string) (t : Template) (entries : list (string * string)) : Template + error :=
  match entries with
  | [] => inl t
  | (k, v) :: rest =>
      if decide (k ≠ mainTmplName) then
        match Parse (New t k) v with
        | inr err => inr err
        | inl t1 => attach mainTmplName t1 rest
        end
      else attach mainTmplName t rest
  end.

(** [RenderMultiHTML].  Go visits the entries of a map in an order of
    its choosing; [visit] is that order, an enumeration of
    [tmplNameToTmpl]. *)
Definition RenderMultiHTML (mainTmplName : string) (tmplNameToTmpl : gmap string string)
    (visit : list (string * string)) (data : any) (funcMap : list FuncMap) : string + error :=
  let t := foldl Funcs (template_New mainTmplName) funcMap in
  match Parse t (default EmptyString (tmplNameToTmpl !! mainTmplName)) with
  | inr err => inr err
  | inl t1 =>
      match attach mainTmplName t1 visit with
      | inr err => inr err
      | inl t2 => ExecuteTemplate t2 mainTmplName data
      end
  end.

(** *** Registration *)

(** [chainMiddlewares] of [*Server] and of [*Group] are defined in a
    file of the package that is not among the sources. *)
Variable Server_chainMiddlewares : Server → HandlerFunc → list Middleware → HandlerFunc.
Variable Group_chainMiddlewares : Group → Server → HandlerFunc → list Middleware → HandlerFunc.

(** [http.FileServer(http.Dir(rootPath)).ServeHTTP] *)
Variable FileServer : string → HandlerFunc.

(** The validation [httprouter] makes of a registration, which is not
    the package's: [None] when the router takes the method and pattern
    beside the routes it has, and the value it panics with when it
    refuses them, as it does a pattern without a leading slash, a
    second handle for a method and pattern, or a misplaced wildcard. *)
Variable router_refuses : Router → string → string → option string.

(** [router.Handle(method, path, handle)], which [router.GET] and the
    like call: the table with the route added, or the router's panic. *)
Definition Router_Handle (method path : string) (handle : Handle) (rt : Router) : Router + string :=
  match router_refuses rt method path with
  | Some v => inr v
  | None => inl (rt ++ [mkRoute method path handle])
  end.

(** The server a registration leaves when [router.Handle] returns.  The
    methods named after a verb are given by the server they leave;
    [FILES], which panics on its own account, is given with its
    panics and the router's. *)
Definition register (method path : string) (handle : Handle) (s : Server) : Server :=
  mkServer (handlers s ++ [mkRoute method path handle]) (port s) (middlewares s).

(** What every registration of the server stores. *)
Definition decorate (s : Server) (handler : HandlerFunc) (mws : list Middleware) : Handle :=
  f (recoverPanic (Server_chainMiddlewares s handler mws)).

Definition Server_GET (path : string) (handler : HandlerFunc) (mws : list Middleware) (s : Server) : Server :=
  register "GET" path (decorate s handler mws) s.

Definition Server_HEAD (path : string) (handler : HandlerFunc) (mws : list Middleware) (s : Server) : Server :=
  register "HEAD" path (decorate s handler mws) s.

Definition Server_HEADGET (path : string) (handler : HandlerFunc) (mws : list Middleware) (s : Server) : Server :=
  let s1 := register "HEAD" path (decorate s handler mws) s in
  register "GET" path (decorate s1 handler mws) s1.

Definition Server_POST (path : string) (handler : HandlerFunc) (mws : list Middleware) (s : Server) : Server :=
  register "POST" path (decorate s handler mws) s.

Definition Server_PUT (path : string) (handler : HandlerFunc) (mws : list Middleware) (s : Server) : Server :=
  register "POST" path (decorate s handler mws) s.

Definition Server_DELETE (path : string) (handler : HandlerFunc) (mws : list Middleware) (s : Server) : Server :=
  register "DELETE" path (decorate s handler mws) s.

Definition Server_PATCH (path : string) (handler : HandlerFunc) (mws : list Middleware) (s : Server) : Server :=
  register "PATCH" path (decorate s handler mws) s.

Definition Server_OPTIONS (path : string) (handler : HandlerFunc) (mws : list Middleware) (s : Server) : Server :=
  register "OPTIONS" path (decorate s handler mws) s.

(** A registration either updates the server or panics. *)
Inductive registration :=
| Registered (s : Server)
| RegistrationPanic (v : string).

(** The handler [FILES] registers. *)
Definition serve_file (rootPath : string) : HandlerFunc :=
  λ st,
    let r := req st in
    let u := mkURL (url.Get (Query (req_URL r)) "filepath") (RawQuery (req_URL r)) in
    FileServer rootPath (set_req st (mkRequest (Method r) u (req_Header r))).

(** [FILES]: its own test of the path, then [s.GET], where the router
    takes the route or panics. *)
Definition Server_FILES (filePath rootPath : string) (mws : list Middleware) (s : Server) : registration :=
  if bool_decide (String.length filePath < 10)%nat
     || bool_decide (Str.drop (String.length filePath - 10) filePath ≠ "/*filepath")
  then RegistrationPanic ("path must end with /*filepath in path '" +:+ filePath +:+ "'")
  else
    match Router_Handle "GET" filePath (decorate s (serve_file rootPath) mws) (handlers s) with
    | inr v => RegistrationPanic v
    | inl rt => Registered (mkServer rt (port s) (middlewares s))
    end.

(** *** Groups: [group.go] *)

Definition group_decorate (g : Group) (s : Server) (handler : HandlerFunc) (mws : list Middleware) : Handle :=
  f (recoverPanic (Group_chainMiddlewares g s handler mws)).

Definition Server_Group (prefix : string) (mws : list Middleware) : Group :=
  mkGroup prefix mws.

Definition Group_GET (g : Group) (path : string) (handler : HandlerFunc) (mws : list Middleware) (s : Server) : Server :=
  register "GET" (prefix g +:+ path) (group_decorate g s handler mws) s.

Definition Group_HEAD (g : Group) (path : string) (handler : HandlerFunc) (mws : list Middleware) (s : Server) : Server :=
  register "HEAD" (prefix g +:+ path) (group_decorate g s handler mws) s.

Definition Group_POST (g : Group) (path : string) (handler : HandlerFunc) (mws : list Middleware) (s : Server) : Server :=
  register "POST" (prefix g +:+ path) (group_decorate g s handler mws) s.

Definition Group_PUT (g : Group) (path : string) (handler : HandlerFunc) (mws : list Middleware) (s : Server) : Server :=
  register "PUT" (prefix g +:+ path) (group_decorate g s handler mws) s.

Definition Group_DELETE (g : Group) (path : string) (handler : HandlerFunc) (mws : list Middleware) (s : Server) : Server :=
  register "DELETE" (prefix g +:+ path) (group_decorate g s handler mws) s.

Definition Group_PATCH (g : Group) (path : string) (handler : HandlerFunc) (mws : list Middleware) (s : Server) : Server :=
  register "PATCH" (prefix g +:+ path) (group_decorate g s handler mws) s.

Definition Group_OPTIONS (g : Group) (path : string) (handler : HandlerFunc) (mws : list Middleware) (s : Server) : Server :=
  register "OPTIONS" (prefix g +:+ path) (group_decorate g s handler mws) s.

Definition Group_FILES (g : Group) (filePath rootPath : string) (mws : list Middleware) (s : Server) : registration :=
  Server_FILES (prefix g +:+ filePath) rootPath mws s.

(** The handles a request with the given method and a path matching
    the pattern exactly can be routed to. *)
Definition bound (s : Server) (method path : string) : list Handle :=
  route_handle <$> filter (λ rt, route_method rt = method ∧ route_path rt = path) (handlers s).

(** *** Vocabulary of the statements *)

(** A header counts as present when [Get] yields a non-empty value:
    the test the package makes. *)
Definition present (h : Header.t) (key : string) : Prop :=
  Header.Get h key ≠ "".

Definition absent (h : Header.t) (key : string) : Prop :=
  Header.Get h key = "".

(** The status [responseHeader] passes on: the caller's for a writer of
    the package, 500 for any other. *)
Definition status_written (w : ResponseWriter) (statusCode : Z) : Z :=
  match w with
  | Foreign _ _ => StatusInternalServerError
  | responseWriter _ _ _ _ => statusCode
  end.

(** What a response helper leaves behind on the writer [w]: the Date
    header, the two ids echoed by a writer of the package and left alone
    by any other, and the calls made, the status first and then
    [payload]. *)
Definition wrote (now : string) (w : ResponseWriter) (statusCode : Z)
    (payload : list call) (w' : ResponseWriter) : Prop :=
  Header_of w' !! "Date" = Some [now] ∧
  calls_of w' = calls_of w ++ WriteHeader_call (status_written w statusCode) :: payload ∧
  match w with
  | responseWriter _ _ requestID xRequestID =>
      Header_of w' !! "Request-Id" = Some [requestID] ∧
      Header_of w' !! "X-Request-Id" = Some [xRequestID]
  | Foreign h _ =>
      Header_of w' !! "Request-Id" = h !! "Request-Id" ∧
      Header_of w' !! "X-Request-Id" = h !! "X-Request-Id"
  end.

(** [s] ends with [suffix]. *)
Definition ends_with (suffix s : string) : Prop :=
  ∃ p, s = p +:+ suffix.

(** The values of a key, none when the key is missing. *)
Definition values_of (v : url.Values) (key : string) : list string :=
  default [] (v !! key).

(** What [Encode] writes for one pair, and the pairs it writes, in its
    order. *)
Definition encoded_pair (kv : string * string) : string :=
  url.QueryEscape kv.1 +:+ "=" +:+ url.QueryEscape kv.2.

Definition pairs_of (v : url.Values) (keys : list string) : list (string * string) :=
  keys ≫= (λ k, pair k <$> values_of v k).

(** The encoded pairs with an ampersand before each, and with
    ampersands between them. *)
Fixpoint amp_pairs (kvs : list (string * string)) : string :=
  match kvs with
  | [] => EmptyString
  | kv :: kvs' => "&" +:+ encoded_pair kv +:+ amp_pairs kvs'
  end.

Definition joined_pairs (kvs : list (string * string)) : string :=
  match kvs with
  | [] => EmptyString
  | kv :: kvs' => encoded_pair kv +:+ amp_pairs kvs'
  end.

(** The values the router captured under a key, in order. *)
Definition captured (ps : Params) (key : string) : list string :=
  Value <$> filter (λ p, Key p = key) ps.

(** The token [FILES] asks for, and the message of its panic. *)
Definition filepath_token : string := "/*filepath".

Definition FILES_panic (filePath : string) : string :=
  "path must end with /*filepath in path '" +:+ filePath +:+ "'".


(** *** The rest of the package *)

(** [ResponseHTML] *)
Definition ResponseHTML (now : string) (w : ResponseWriter) (tmplName tmpl : string)
    (data : any) (funcMap : list FuncMap) : ResponseWriter * option error :=
  match RenderHTML tmplName tmpl data funcMap with
  | inr err => (w, Some err)
  | inl html => (ResponseString now w StatusOK (of_string html), None)
  end.

(** [ResponseMultiHTML] *)
Definition ResponseMultiHTML (now : string) (w : ResponseWriter) (mainTmplName : string)
    (tmplNameToTmpl : gmap string string) (visit : list (string * string))
    (data : any) (funcMap : list FuncMap) : ResponseWriter * option error :=
  match RenderMultiHTML mainTmplName tmplNameToTmpl visit data funcMap with
  | inr err => (w, Some err)
  | inl html => (ResponseString now w StatusOK (of_string html), None)
  end.

(** [Opts], with the fields that decide the fields of [Server] kept
    here. *)
Record Opts := mkOpts {
  Port : Z;
  EnableLogger : bool
}.

(** The method [log] of [*Server], the logging middleware, is defined
    in a file of the package that is not among the sources. *)
Variable Server_log : Middleware.

(** [New] of the package: a fresh router, the port of the options, and
    the logging middleware when logging is enabled. *)
Definition httpserver_New (opts : Opts) : Server :=
  let srv := mkServer [] (Port opts) [] in
  if EnableLogger opts
  then mkServer (handlers srv) (port srv) (middlewares srv ++ [Server_log])
  else srv.

(** The seven verbs with a method of their own on [*Server] and on
    [*Group]. *)
Inductive verb := GET | HEAD | POST | PUT | DELETE | PATCH | OPTIONS.

Definition verb_name (v : verb) : string :=
  match v with
  | GET => "GET" | HEAD => "HEAD" | POST => "POST" | PUT => "PUT"
  | DELETE => "DELETE" | PATCH => "PATCH" | OPTIONS => "OPTIONS"
  end.

Definition Server_method (v : verb) : string → HandlerFunc → list Middleware → Server → Server :=
  match v with
  | GET => Server_GET | HEAD => Server_HEAD | POST => Server_POST | PUT => Server_PUT
  | DELETE => Server_DELETE | PATCH => Server_PATCH | OPTIONS => Server_OPTIONS
  end.

Definition Group_method (v : verb) : Group → string → HandlerFunc → list Middleware → Server → Server :=
  match v with
  | GET => Group_GET | HEAD => Group_HEAD | POST => Group_POST | PUT => Group_PUT
  | DELETE => Group_DELETE | PATCH => Group_PATCH | OPTIONS => Group_OPTIONS
  end.

(** The servers a program can build with the methods of [*Server]
    alone, and with those of [*Server] and of its groups. *)
Inductive server_configured : Server → Prop :=
| sc_New opts : server_configured (httpserver_New opts)
| sc_method v path handler mws s :
    server_configured s → server_configured (Server_method v path handler mws s)
| sc_HEADGET path handler mws s :
    server_configured s → server_configured (Server_HEADGET path handler mws s)
| sc_FILES filePath rootPath mws s s' :
    server_configured s →
    Server_FILES filePath rootPath mws s = Registered s' →
    server_configured s'.

Inductive configured : Server → Prop :=
| c_New opts : configured (httpserver_New opts)
| c_method v path handler mws s :
    configured s → configured (Server_method v path handler mws s)
| c_HEADGET path handler mws s :
    configured s → configured (Server_HEADGET path handler mws s)
| c_FILES filePath rootPath mws s s' :
    configured s →
    Server_FILES filePath rootPath mws s = Registered s' →
    configured s'
| c_group_method g v path handler mws s :
    configured s → configured (Group_method v g path handler mws s)
| c_group_FILES g filePath rootPath mws s s' :
    configured s →
    Group_FILES g filePath rootPath mws s = Registered s' →
    configured s'.

(** The status a writer of the package has recorded. *)
Definition recorded_status (w : ResponseWriter) : option Z :=
  match w with
  | Foreign _ _ => None
  | responseWriter _ statusCode _ _ => Some statusCode
  end.

(** A handle that returns whatever request it is called with. *)
Definition never_panics (h : Handle) : Prop :=
  ∀ ps st, ∃ st', h ps st = Return st'.

(** The methods a route of the table can carry. *)
Definition known_method (rt : route) : Prop :=
  route_method rt ∈ verb_name <$> [GET; HEAD; POST; PUT; DELETE; PATCH; OPTIONS].

(** The calls a handler makes on its writer, replayed in order, and
    the code of the latest [WriteHeader] among them, 200 when there is
    none. *)
Definition replay (w : ResponseWriter) (cs : list call) : ResponseWriter :=
  foldl (λ w c, match c with
                | WriteHeader_call statusCode => WriteHeader w statusCode
                | Write_call body => Write w body
                end) w cs.

Definition latest_status (cs : list call) : Z :=
  foldl (λ sc c, match c with
                 | WriteHeader_call statusCode => statusCode
                 | Write_call _ => sc
                 end) StatusOK cs.

(** * Part II: lemmas and theorems *)

(** ** Strings *)

Lemma Str_app_assoc (a b c : string) : (a +:+ b) +:+ c = a +:+ (b +:+ c).
Proof. induction a; simpl; congruence. Qed.

Lemma Str_app_nil_r (a : string) : a +:+ "" = a.
Proof. induction a; simpl; congruence. Qed.

Lemma Str_length_app (a b : string) :
  String.length (a +:+ b) = (String.length a + String.length b)%nat.
Proof. induction a; simpl; congruence. Qed.

Lemma Str_drop_app (a b : string) : Str.drop (String.length a) (a +:+ b) = b.
Proof. induction a; simpl; auto. Qed.

Lemma Str_length_drop n s : String.length (Str.drop n s) = (String.length s - n)%nat.
Proof. revert s; induction n; intros [|c s]; simpl; auto. Qed.

(** A string is its first [n] bytes followed by [s[n:]]. *)
Lemma Str_split_at n s :
  (n ≤ String.length s)%nat →
  ∃ p, s = p +:+ Str.drop n s ∧ String.length p = n.
Proof.
  revert s; induction n as [|n IH]; intros s Hn.
  - by exists EmptyString.
  - destruct s as [|c s]; simpl in *; [lia|].
    destruct (IH s) as (p & Hp & Hl); [lia|].
    exists (String c p). simpl. split; congruence.
Qed.

(** ** Headers and writers *)

Lemma Header_Get_Set_eq h k v : Header.Get (Header.Set_ h k v) k = v.
Proof. unfold Header.Get, Header.Set_. by rewrite lookup_insert_eq. Qed.

Lemma Header_Get_Set_ne h k k' v :
  k ≠ k' → Header.Get (Header.Set_ h k v) k' = Header.Get h k'.
Proof. intros. unfold Header.Get, Header.Set_. by rewrite lookup_insert_ne. Qed.

Lemma Header_of_Header_Set w k v :
  Header_of (Header_Set w k v) = Header.Set_ (Header_of w) k v.
Proof. induction w; simpl; auto. Qed.

Lemma Header_of_WriteHeader w c : Header_of (WriteHeader w c) = Header_of w.
Proof. induction w; simpl; auto. Qed.

Lemma Header_of_Write w b : Header_of (Write w b) = Header_of w.
Proof. induction w; simpl; auto. Qed.

Lemma calls_of_Header_Set w k v : calls_of (Header_Set w k v) = calls_of w.
Proof. induction w; simpl; auto. Qed.

Lemma calls_of_WriteHeader w c :
  calls_of (WriteHeader w c) = calls_of w ++ [WriteHeader_call c].
Proof. induction w; simpl; auto. Qed.

Lemma calls_of_Write w b : calls_of (Write w b) = calls_of w ++ [Write_call b].
Proof. induction w; simpl; auto. Qed.

Lemma body_of_app cs cs' : body_of (cs ++ cs') = body_of cs +:+ body_of cs'.
Proof.
  induction cs as [|[c|b] cs IH]; simpl; auto.
  by rewrite IH, Str_app_assoc.
Qed.

Create Rewrite HintDb writer.
#[local] Hint Rewrite Header_of_Header_Set Header_of_WriteHeader Header_of_Write
  calls_of_Header_Set calls_of_WriteHeader calls_of_Write : writer.

Lemma responseHeader_calls now w statusCode :
  calls_of (responseHeader now w statusCode)
  = calls_of w ++ [WriteHeader_call (status_written w statusCode)].
Proof.
  unfold responseHeader. destruct w; simpl.
  - done.
  - by autorewrite with writer.
Qed.

Lemma responseHeader_Date now w statusCode :
  Header_of (responseHeader now w statusCode) !! "Date" = Some [now].
Proof.
  unfold responseHeader. destruct w; simpl.
  - apply lookup_insert_eq.
  - autorewrite with writer. unfold Header.Set_.
    rewrite !lookup_insert_ne by done. apply lookup_insert_eq.
Qed.

Lemma responseHeader_ids now w statusCode :
  match w with
  | responseWriter _ _ requestID xRequestID =>
      Header_of (responseHeader now w statusCode) !! "Request-Id" = Some [requestID] ∧
      Header_of (responseHeader now w statusCode) !! "X-Request-Id" = Some [xRequestID]
  | Foreign h _ =>
      Header_of (responseHeader now w statusCode) !! "Request-Id" = h !! "Request-Id" ∧
      Header_of (responseHeader now w statusCode) !! "X-Request-Id" = h !! "X-Request-Id"
  end.
Proof.
  unfold responseHeader. destruct w; simpl.
  - unfold Header.Set_. by rewrite !lookup_insert_ne.
  - autorewrite with writer. unfold Header.Set_. split.
    + rewrite lookup_insert_ne by done. apply lookup_insert_eq.
    + apply lookup_insert_eq.
Qed.

Lemma responseHeader_wrote now w statusCode :
  wrote now w statusCode [] (responseHeader now w statusCode).
Proof.
  split; [apply responseHeader_Date|]. split; [apply responseHeader_calls|].
  apply responseHeader_ids.
Qed.

(** Writing a body after the header step adds one call and touches no
    header. *)
Lemma wrote_Write now w statusCode w' body :
  wrote now w statusCode [] w' → wrote now w statusCode [Write_call body] (Write w' body).
Proof.
  intros (HD & Hc & Hids). unfold wrote.
  rewrite Header_of_Write, calls_of_Write, Hc, <- app_assoc. simpl.
  repeat split; auto.
Qed.

(** Setting the content type first changes neither the kind of the
    writer nor its ids. *)
Lemma wrote_Content_Type now w statusCode payload w' v :
  wrote now (Header_Set w "Content-Type" v) statusCode payload w' →
  wrote now w statusCode payload w'.
Proof.
  intros (HD & Hc & Hids). unfold wrote. split; [done|].
  destruct w; simpl in *.
  - split; [done|]. unfold Header.Set_ in Hids.
    by rewrite !lookup_insert_ne in Hids.
  - rewrite calls_of_Header_Set in Hc. done.
Qed.

(** C8: the header step, alone and inside each of the three helpers,
    sets the Date header; on a writer of the package it echoes the
    recorded Request-Id and X-Request-Id and passes the caller's status
    on; on any other writer it passes 500 on, leaves the two id headers
    alone and makes no [Write] call.  The only call a helper adds after
    the step is the [Write] of its own body. *)
Theorem response_helpers_header_contract now w statusCode :
  wrote now w statusCode [] (responseHeader now w statusCode) ∧
  (∀ body, wrote now w statusCode [Write_call body] (Response now w statusCode body)) ∧
  (∀ body, wrote now w statusCode [Write_call (Sprint_v body)]
             (ResponseString now w statusCode body)) ∧
  (∀ body, wrote now w statusCode
             match json_Marshal body with
             | inl b => [Write_call (b +:+ newline)]
             | inr _ => []
             end
             (ResponseJSON now w statusCode body).1).
Proof.
  split; [apply responseHeader_wrote|].
  split; [|split]; intros body.
  - apply wrote_Write, responseHeader_wrote.
  - apply wrote_Write, responseHeader_wrote.
  - apply (wrote_Content_Type _ _ _ _ _ "application/json").
    unfold ResponseJSON, Encoder_Encode. destruct (json_Marshal body); simpl.
    + apply wrote_Write, responseHeader_wrote.
    + apply responseHeader_wrote.
Qed.

(** C6 (as amended): when the value cannot be encoded [ResponseJSON]
    returns the encoder's error and makes no [Write] call, so the body
    is as it was; when it can, [ResponseJSON] makes one [Write] call,
    which carries the encoding ended by the encoder's newline, and
    returns what that call returns: [nil] when the writer takes the
    bytes, the writer's error when it does not. *)
Theorem ResponseJSON_encodes_or_fails now w statusCode body :
  let w2 := responseHeader now (Header_Set w "Content-Type" "application/json") statusCode in
  calls_of w2 = calls_of w ++ [WriteHeader_call (status_written w statusCode)] ∧
  match json_Marshal body with
  | inr err =>
      (ResponseJSON now w statusCode body).2 = Some err ∧
      calls_of (ResponseJSON now w statusCode body).1 = calls_of w2 ∧
      body_of (calls_of (ResponseJSON now w statusCode body).1) = body_of (calls_of w)
  | inl b =>
      (ResponseJSON now w statusCode body).2 = Write_error w2 (b +:+ String "010" "") ∧
      ((ResponseJSON now w statusCode body).2 = None
       ↔ Write_error w2 (b +:+ String "010" "") = None) ∧
      calls_of (ResponseJSON now w statusCode body).1
      = calls_of w2 ++ [Write_call (b +:+ String "010" "")] ∧
      body_of (calls_of (ResponseJSON now w statusCode body).1)
      = body_of (calls_of w) +:+ b +:+ String "010" ""
  end.
Proof.
  assert (Hs : status_written (Header_Set w "Content-Type" "application/json") statusCode
               = status_written w statusCode) by (by destruct w).
  intros w2.
  assert (Hw2 : calls_of w2 = calls_of w ++ [WriteHeader_call (status_written w statusCode)]).
  { subst w2. by rewrite responseHeader_calls, calls_of_Header_Set, Hs. }
  split; [exact Hw2|].
  unfold ResponseJSON, Encoder_Encode. fold w2.
  destruct (json_Marshal body) as [b|err]; cbn [fst snd].
  - split; [done|]. split; [done|].
    rewrite calls_of_Write. split; [done|].
    rewrite body_of_app, Hw2, body_of_app. simpl.
    by rewrite !Str_app_nil_r.
  - split; [done|]. split; [done|].
    rewrite Hw2, body_of_app. simpl. by rewrite Str_app_nil_r.
Qed.

(** ** Request ids *)

Lemma hex_digits_decode (c : ascii) :
  hex.unhex (hex.digit hex.hextable (hex.hi c)) = Some (hex.hi c) ∧
  hex.unhex (hex.digit hex.hextable (hex.lo c)) = Some (hex.lo c) ∧
  hex.unhex (hex.digit hex.upperhex (hex.hi c)) = Some (hex.hi c) ∧
  hex.unhex (hex.digit hex.upperhex (hex.lo c)) = Some (hex.lo c).
Proof.
  destruct c as [[] [] [] [] [] [] [] []]; vm_compute; auto.
Qed.

Lemma hex_hi_lo (c : ascii) :
  ascii_of_N (N.lor (N.shiftl (hex.hi c) 4) (hex.lo c)) = c.
Proof.
  destruct c as [[] [] [] [] [] [] [] []]; vm_compute; reflexivity.
Qed.

Lemma hex_digits_inj (table : string) (c d : ascii) :
  table = hex.hextable ∨ table = hex.upperhex →
  hex.digit table (hex.hi c) = hex.digit table (hex.hi d) →
  hex.digit table (hex.lo c) = hex.digit table (hex.lo d) →
  c = d.
Proof.
  intros Ht Hh Hl.
  destruct (hex_digits_decode c) as (c1 & c2 & c3 & c4).
  destruct (hex_digits_decode d) as (d1 & d2 & d3 & d4).
  rewrite <- (hex_hi_lo c), <- (hex_hi_lo d).
  destruct Ht as [-> | ->].
  - rewrite Hh in c1. rewrite Hl in c2. congruence.
  - rewrite Hh in c3. rewrite Hl in c4. congruence.
Qed.

Lemma hex_Encode_inj (l1 l2 : list ascii) : hex.Encode l1 = hex.Encode l2 → l1 = l2.
Proof.
  revert l2; induction l1 as [|c l1 IH]; intros [|d l2] H; simpl in H;
    try discriminate; auto.
  injection H as Hh Hl H. f_equal; auto.
  apply (hex_digits_inj hex.hextable); auto.
Qed.

Ltac sixteen bs Hl :=
  do 16 (destruct bs as [|? bs]; [discriminate Hl|]);
  destruct bs; [|discriminate Hl].

(** The generated id is 36 bytes long. *)
Lemma uuid_String_length (u : uuid.UUID) : String.length (uuid.String_ u) = 36%nat.
Proof. destruct u as [bs Hl]. sixteen bs Hl. reflexivity. Qed.

(** Different values of the generator print differently. *)
Lemma uuid_String_inj (u1 u2 : uuid.UUID) : uuid.String_ u1 = uuid.String_ u2 → u1 = u2.
Proof.
  destruct u1 as [bs1 Hl1], u2 as [bs2 Hl2]. intros H.
  assert (bs1 = bs2) as ->.
  { apply hex_Encode_inj.
    sixteen bs1 Hl1. sixteen bs2 Hl2.
    unfold uuid.String_, uuid.slice in H. simpl in H.
    simpl. congruence. }
  f_equal. apply proof_irrel.
Qed.

Lemma uuid_String_nonempty (u : uuid.UUID) : uuid.String_ u ≠ "".
Proof.
  intros H. pose proof (uuid_String_length u) as Hl. rewrite H in Hl. discriminate.
Qed.

(** The headers [next] sees, by the two tests [f] makes. *)
Lemma f_enter_Header ps st :
  req_Header (req (f_enter ps st))
  = let h := req_Header (req st) in
    if decide (Header.Get h "Request-Id" = "") then
      if decide (Header.Get h "X-Request-Id" = "")
      then Header.Set_ h "Request-Id" (uuid.String_ (fresh st))
      else Header.Set_ h "Request-Id" (Header.Get h "X-Request-Id")
    else h.
Proof.
  unfold f_enter. simpl.
  set (h := req_Header (req st)).
  destruct (decide (Header.Get h "Request-Id" = "")) as [Hr|Hr];
    destruct (decide (Header.Get h "X-Request-Id" = "")) as [Hx|Hx].
  - rewrite (bool_decide_eq_true_2 _ Hr), (bool_decide_eq_true_2 _ Hx). simpl.
    rewrite Header_Get_Set_eq.
    rewrite (bool_decide_eq_false_2 (uuid.String_ (fresh st) = ""))
      by apply uuid_String_nonempty.
    done.
  - rewrite (bool_decide_eq_true_2 _ Hr), (bool_decide_eq_false_2 _ Hx). simpl.
    by rewrite (bool_decide_eq_true_2 _ Hr), (bool_decide_eq_true_2 _ Hx).
  - rewrite (bool_decide_eq_false_2 _ Hr). simpl.
    by rewrite (bool_decide_eq_false_2 _ Hr).
  - rewrite (bool_decide_eq_false_2 _ Hr). simpl.
    by rewrite (bool_decide_eq_false_2 _ Hr).
Qed.

Lemma f_enter_resp ps st :
  resp (f_enter ps st)
  = responseWriter (resp st) StatusOK
      (Header.Get (req_Header (req (f_enter ps st))) "Request-Id")
      (Header.Get (req_Header (req (f_enter ps st))) "X-Request-Id").
Proof. reflexivity. Qed.

(** C1: [f] runs [next] in the state [f_enter] prepares.  There, when
    neither header is present Request-Id is the generated id, which is
    not empty and differs whenever the generator's values differ; when
    only X-Request-Id is present Request-Id is its value; when
    Request-Id is present the headers are as they came. *)
Theorem request_id_injection ps st :
  let h := req_Header (req st) in
  let h' := req_Header (req (f_enter ps st)) in
  (∀ next, f next ps st = f_leave (next (f_enter ps st))) ∧
  (absent h "Request-Id" → absent h "X-Request-Id" →
     h' = Header.Set_ h "Request-Id" (uuid.String_ (fresh st)) ∧
     Header.Get h' "Request-Id" = uuid.String_ (fresh st) ∧
     uuid.String_ (fresh st) ≠ "" ∧
     ∀ u, u ≠ fresh st → uuid.String_ u ≠ uuid.String_ (fresh st)) ∧
  (absent h "Request-Id" → present h "X-Request-Id" →
     h' = Header.Set_ h "Request-Id" (Header.Get h "X-Request-Id") ∧
     Header.Get h' "Request-Id" = Header.Get h "X-Request-Id") ∧
  (present h "Request-Id" → h' = h).
Proof.
  intros h h'. subst h'. rewrite f_enter_Header. fold h. simpl.
  unfold absent, present.
  split; [done|]. split; [|split].
  - intros Hr Hx. rewrite !decide_True by done.
    rewrite Header_Get_Set_eq. repeat split.
    + apply uuid_String_nonempty.
    + intros u Hu Heq. by apply uuid_String_inj in Heq.
  - intros Hr Hx. rewrite decide_True, decide_False by done.
    by rewrite Header_Get_Set_eq.
  - intros Hr. by rewrite decide_False.
Qed.

(** C10: with neither header on the request, the generated id goes to
    Request-Id only: the request's X-Request-Id entry is as it came, the
    wrapper records the empty string for it, and a response helper sets
    the response's X-Request-Id header to that empty string. *)
Theorem generated_id_only_under_Request_Id ps st now statusCode :
  absent (req_Header (req st)) "Request-Id" →
  absent (req_Header (req st)) "X-Request-Id" →
  let st' := f_enter ps st in
  let id := uuid.String_ (fresh st) in
  req_Header (req st') !! "Request-Id" = Some [id] ∧
  req_Header (req st') !! "X-Request-Id" = req_Header (req st) !! "X-Request-Id" ∧
  resp st' = responseWriter (resp st) StatusOK id "" ∧
  Header_of (responseHeader now (resp st') statusCode) !! "Request-Id" = Some [id] ∧
  Header_of (responseHeader now (resp st') statusCode) !! "X-Request-Id" = Some [""].
Proof.
  intros Hr Hx st' id. subst st'.
  assert (Hh : req_Header (req (f_enter ps st))
               = Header.Set_ (req_Header (req st)) "Request-Id" id).
  { rewrite f_enter_Header. simpl. by rewrite !decide_True. }
  assert (Hw : resp (f_enter ps st) = responseWriter (resp st) StatusOK id "").
  { rewrite f_enter_resp, Hh.
    rewrite Header_Get_Set_eq, Header_Get_Set_ne by done. by rewrite Hx. }
  rewrite Hh. unfold Header.Set_.
  split; [apply lookup_insert_eq|].
  split; [by rewrite lookup_insert_ne|].
  split; [done|].
  pose proof (responseHeader_ids now (resp (f_enter ps st)) statusCode) as Hids.
  rewrite Hw in Hids. rewrite Hw. exact Hids.
Qed.

(** ** The panic guard *)




(** ** Registration *)

Lemma bound_register method path handle s method' path' :
  bound (register method path handle s) method' path'
  = bound s method' path'
    ++ (if decide (method = method' ∧ path = path') then [handle] else []).
Proof.
  unfold bound, register. cbn [handlers].
  rewrite filter_app, fmap_app. f_equal.
  rewrite filter_cons, filter_nil. cbn [route_method route_path].
  by destruct (decide _).
Qed.

(** The code at C2: [Server_PUT] adds the decorated handler to what is
    bound under POST for the path and adds nothing under PUT; it is
    [Server_POST]. *)
Theorem Server_PUT_binds_under_POST_only path handler mws s :
  bound (Server_PUT path handler mws s) "POST" path
  = bound s "POST" path ++ [decorate s handler mws] ∧
  bound (Server_PUT path handler mws s) "PUT" path = bound s "PUT" path ∧
  Server_PUT path handler mws s = Server_POST path handler mws s.
Proof.
  unfold Server_PUT, Server_POST. rewrite !bound_register.
  rewrite decide_True by done. rewrite decide_False by (intros [? _]; done).
  by rewrite app_nil_r.
Qed.


(** The test [FILES] makes is the test for the token at the end. *)
Lemma FILES_test_ends filePath :
  ends_with filepath_token filePath →
  bool_decide (String.length filePath < 10)%nat
  || bool_decide (Str.drop (String.length filePath - 10) filePath ≠ "/*filepath")
  = false.
Proof.
  intros [p ->]. rewrite Str_length_app. simpl.
  rewrite bool_decide_eq_false_2 by lia. simpl.
  replace (String.length p + 10 - 10)%nat with (String.length p) by lia.
  rewrite Str_drop_app. apply bool_decide_eq_false_2. intros H. by apply H.
Qed.

Lemma FILES_test_not_ends filePath :
  ¬ ends_with filepath_token filePath →
  bool_decide (String.length filePath < 10)%nat
  || bool_decide (Str.drop (String.length filePath - 10) filePath ≠ "/*filepath")
  = true.
Proof.
  intros Hn.
  destruct (decide (String.length filePath < 10)%nat) as [Hl|Hl].
  - by rewrite (bool_decide_eq_true_2 _ Hl).
  - rewrite (bool_decide_eq_false_2 _ Hl). simpl.
    apply bool_decide_eq_true_2. intros Hd. apply Hn.
    destruct (Str_split_at (String.length filePath - 10) filePath) as (p & Hp & _); [lia|].
    exists p. by rewrite Hd in Hp.
Qed.

Lemma Server_FILES_ends filePath rootPath mws s :
  ends_with filepath_token filePath →
  Server_FILES filePath rootPath mws s
  = match router_refuses (handlers s) "GET" filePath with
    | Some v => RegistrationPanic v
    | None => Registered (Server_GET filePath (serve_file rootPath) mws s)
    end.
Proof.
  intros H. unfold Server_FILES, Router_Handle. rewrite FILES_test_ends by done.
  by destruct (router_refuses _ _ _).
Qed.

Lemma Server_FILES_not_ends filePath rootPath mws s :
  ¬ ends_with filepath_token filePath →
  Server_FILES filePath rootPath mws s = RegistrationPanic (FILES_panic filePath).
Proof. intros H. unfold Server_FILES. by rewrite FILES_test_not_ends. Qed.

Lemma ends_with_app suffix p s : ends_with suffix s → ends_with suffix (p +:+ s).
Proof. intros [q ->]. exists (p +:+ q). by rewrite Str_app_assoc. Qed.

(** A string of at least [n] bytes ends as any string it is the tail
    of does, as far as a suffix of [n] bytes goes. *)
Lemma ends_with_app_inv suffix p s :
  (String.length suffix ≤ String.length s)%nat →
  ends_with suffix (p +:+ s) → ends_with suffix s.
Proof.
  intros Hl [q Hq].
  destruct (Str_split_at (String.length s - String.length suffix) s) as (a & Ha & Hla); [lia|].
  exists a. rewrite Ha at 1. f_equal.
  assert (Hd : Str.drop (String.length q) (p +:+ s) = suffix)
    by (rewrite Hq; apply Str_drop_app).
  rewrite Ha, <- Str_app_assoc in Hd.
  assert (Hlen : String.length q = String.length (p +:+ a)).
  { apply (f_equal String.length) in Hq. rewrite Ha in Hq.
    rewrite !Str_length_app in Hq. rewrite Str_length_app.
    rewrite Str_length_drop in Hq. lia. }
  rewrite Hlen, Str_drop_app in Hd. done.
Qed.

(** C5 (as amended): [Server_FILES] panics on its own account, with
    the router not asked and the server untouched, exactly when its path
    does not end with the token; for a path that ends with it the
    outcome is the router's: the file handler is registered under GET
    when the router takes the pattern, and the router's panic comes
    through when it refuses it.  [Group_FILES] hands the prefix followed
    by its path to [Server_FILES]: a path that ends with the token
    passes the test, and the test fails when the prefixed path does not
    end with the token, as is the case for a path of ten bytes or more
    that does not end with it. *)
Theorem FILES_checks_the_token filePath rootPath mws s g :
  (¬ ends_with filepath_token filePath →
     Server_FILES filePath rootPath mws s = RegistrationPanic (FILES_panic filePath)) ∧
  (ends_with filepath_token filePath →
     Server_FILES filePath rootPath mws s
     = match router_refuses (handlers s) "GET" filePath with
       | Some v => RegistrationPanic v
       | None => Registered (Server_GET filePath (serve_file rootPath) mws s)
       end) ∧
  ((String.length filePath < 10)%nat → ¬ ends_with filepath_token filePath) ∧
  Group_FILES g filePath rootPath mws s
  = Server_FILES (prefix g +:+ filePath) rootPath mws s ∧
  (ends_with filepath_token filePath →
     Group_FILES g filePath rootPath mws s
     = match router_refuses (handlers s) "GET" (prefix g +:+ filePath) with
       | Some v => RegistrationPanic v
       | None =>
           Registered (Server_GET (prefix g +:+ filePath) (serve_file rootPath) mws s)
       end) ∧
  (¬ ends_with filepath_token (prefix g +:+ filePath) →
     Group_FILES g filePath rootPath mws s
     = RegistrationPanic (FILES_panic (prefix g +:+ filePath))) ∧
  ((10 ≤ String.length filePath)%nat → ¬ ends_with filepath_token filePath →
     Group_FILES g filePath rootPath mws s
     = RegistrationPanic (FILES_panic (prefix g +:+ filePath))).
Proof.
  unfold Group_FILES. repeat split.
  - apply Server_FILES_not_ends.
  - apply Server_FILES_ends.
  - intros Hl [p Hp]. apply (f_equal String.length) in Hp.
    rewrite Str_length_app in Hp. simpl in Hp. lia.
  - intros H. by apply Server_FILES_ends, ends_with_app.
  - apply Server_FILES_not_ends.
  - intros Hl H. apply Server_FILES_not_ends.
    intros H'. apply H. by apply ends_with_app_inv in H'.
Qed.

(** ** Query strings *)

Lemma unescape_escape_byte c rest :
  url.QueryUnescape (url.escape_byte c +:+ rest) = String c <$> url.QueryUnescape rest.
Proof. destruct c as [[] [] [] [] [] [] [] []]; reflexivity. Qed.

Lemma QueryUnescape_QueryEscape s : url.QueryUnescape (url.QueryEscape s) = Some s.
Proof.
  induction s as [|c s IH]; [done|].
  simpl. by rewrite unescape_escape_byte, IH.
Qed.

(** An escaped text has no ampersand, equals sign or semicolon. *)
Lemma contains_escape_byte c0 c rest :
  c0 ∈ ["&"; "="; ";"]%char →
  Str.contains c0 (url.escape_byte c +:+ rest) = Str.contains c0 rest.
Proof.
  intros Hc. repeat (apply elem_of_cons in Hc as [->|Hc]);
    [| | |by apply elem_of_nil in Hc];
    destruct c as [[] [] [] [] [] [] [] []]; reflexivity.
Qed.

Lemma contains_QueryEscape_app c0 s rest :
  c0 ∈ ["&"; "="; ";"]%char →
  Str.contains c0 (url.QueryEscape s +:+ rest) = Str.contains c0 rest.
Proof.
  intros Hc. induction s as [|c s IH]; [done|].
  simpl. by rewrite Str_app_assoc, contains_escape_byte.
Qed.

Lemma contains_QueryEscape c0 s :
  c0 ∈ ["&"; "="; ";"]%char → Str.contains c0 (url.QueryEscape s) = false.
Proof.
  intros Hc. rewrite <- (Str_app_nil_r (url.QueryEscape s)).
  by rewrite contains_QueryEscape_app.
Qed.

Lemma cut_at sep a t :
  Str.contains sep a = false → Str.cut sep (a +:+ String sep t) = (a, t).
Proof.
  induction a as [|c a IH]; simpl; intros Hc.
  - by rewrite decide_True.
  - destruct (decide (c = sep)); [done|]. by rewrite IH.
Qed.

Lemma pieces_one sep a : Str.contains sep a = false → Str.pieces sep a = [a].
Proof.
  induction a as [|c a IH]; simpl; intros Hc; [done|].
  destruct (decide (c = sep)); [done|]. by rewrite IH.
Qed.

Lemma pieces_at sep a rest :
  Str.contains sep a = false →
  Str.pieces sep (a +:+ String sep rest) = a :: Str.pieces sep rest.
Proof.
  induction a as [|c a IH]; simpl; intros Hc.
  - by rewrite decide_True.
  - destruct (decide (c = sep)); [done|]. by rewrite IH.
Qed.

Ltac in_list := rewrite ?elem_of_cons; auto 6.

Lemma encoded_pair_clean c0 kv :
  c0 ∈ ["&"; ";"]%char → Str.contains c0 (encoded_pair kv) = false.
Proof.
  intros Hc. unfold encoded_pair.
  apply elem_of_cons in Hc as [->|Hc];
    [|apply list_elem_of_singleton in Hc as ->].
  - rewrite contains_QueryEscape_app by in_list. simpl.
    apply contains_QueryEscape. in_list.
  - rewrite contains_QueryEscape_app by in_list. simpl.
    apply contains_QueryEscape. in_list.
Qed.

(** One turn of the parser on an encoded pair appends the pair. *)
Lemma parse_pair_encoded m kv :
  url.parse_pair m (encoded_pair kv) = url.Add m kv.1 kv.2.
Proof.
  unfold url.parse_pair.
  rewrite encoded_pair_clean by in_list.
  rewrite decide_False.
  2:{ unfold encoded_pair. destruct (url.QueryEscape kv.1); discriminate. }
  change (encoded_pair kv)
    with (url.QueryEscape kv.1 +:+ String "=" (url.QueryEscape kv.2)).
  rewrite cut_at by (apply contains_QueryEscape; in_list).
  by rewrite !QueryUnescape_QueryEscape.
Qed.

Lemma foldl_bind {A B C} (g : A → B → A) (h : C → list B) (a : A) (l : list C) :
  foldl g a (l ≫= h) = foldl (λ a x, foldl g a (h x)) a l.
Proof.
  revert a; induction l as [|x l IH]; intros a; [done|].
  rewrite bind_cons, foldl_app. apply IH.
Qed.

Lemma foldl_fmap_pair {A B C} (g : A → C → A) (h : B → C) (a : A) (l : list B) :
  foldl g a (h <$> l) = foldl (λ a x, g a (h x)) a l.
Proof. revert a; induction l as [|x l IH]; intros a; simpl; auto. Qed.

Lemma foldl_pointwise {A B} (g g' : A → B → A) (a : A) (l : list B) :
  (∀ a x, g a x = g' a x) → foldl g a l = foldl g' a l.
Proof.
  intros Hg. revert a; induction l as [|x l IH]; intros a; simpl; [done|].
  by rewrite Hg, IH.
Qed.

(** [Encode] writes the pairs of the map, key by key. *)
Lemma Encode_pairs v :
  url.Encode v
  = foldl (λ buf kv, url.write_pair (url.QueryEscape kv.1) buf kv.2) EmptyString
      (pairs_of v (merge_sort String.le (map fst (map_to_list v)))).
Proof.
  unfold url.Encode, pairs_of. rewrite foldl_bind.
  apply foldl_pointwise. intros buf k. by rewrite foldl_fmap_pair.
Qed.

Lemma encoded_pair_nonempty kv : encoded_pair kv ≠ "".
Proof. unfold encoded_pair. destruct (url.QueryEscape kv.1); discriminate. Qed.

Lemma write_pairs_nonempty buf kvs :
  buf ≠ "" →
  foldl (λ buf kv, url.write_pair (url.QueryEscape kv.1) buf kv.2) buf kvs
  = buf +:+ amp_pairs kvs.
Proof.
  revert buf; induction kvs as [|kv kvs IH]; intros buf Hb; simpl.
  - by rewrite Str_app_nil_r.
  - rewrite IH.
    + unfold url.write_pair, encoded_pair. rewrite decide_False by done.
      rewrite !Str_app_assoc. reflexivity.
    + unfold url.write_pair. rewrite decide_False by done.
      destruct buf; [done|discriminate].
Qed.

Lemma write_pairs_joined kvs :
  foldl (λ buf kv, url.write_pair (url.QueryEscape kv.1) buf kv.2) EmptyString kvs
  = joined_pairs kvs.
Proof.
  destruct kvs as [|kv kvs]; [done|]. simpl.
  rewrite write_pairs_nonempty; [done|].
  unfold url.write_pair. simpl. apply (encoded_pair_nonempty kv).
Qed.

Lemma pieces_amp_pairs a kvs :
  Str.contains "&" a = false →
  Str.pieces "&" (a +:+ amp_pairs kvs) = a :: (encoded_pair <$> kvs).
Proof.
  revert a; induction kvs as [|kv kvs IH]; intros a Ha; simpl.
  - rewrite Str_app_nil_r. by apply pieces_one.
  - rewrite pieces_at by done. f_equal. apply IH.
    apply encoded_pair_clean. in_list.
Qed.

Lemma parse_pairs_encoded m kvs :
  foldl url.parse_pair m (encoded_pair <$> kvs)
  = foldl (λ m kv, url.Add m kv.1 kv.2) m kvs.
Proof.
  revert m; induction kvs as [|kv kvs IH]; intros m; simpl; [done|].
  by rewrite parse_pair_encoded, IH.
Qed.

(** Parsing what [Encode] writes for a list of pairs adds the pairs in
    order. *)
Lemma ParseQuery_joined kvs :
  url.ParseQuery (joined_pairs kvs) = foldl (λ m kv, url.Add m kv.1 kv.2) ∅ kvs.
Proof.
  unfold url.ParseQuery. destruct kvs as [|kv kvs]; [done|].
  unfold joined_pairs. rewrite pieces_amp_pairs by (apply encoded_pair_clean; in_list).
  apply (parse_pairs_encoded ∅ (kv :: kvs)).
Qed.

(** The values of a key after a run of [Add]: the old ones, then the
    added ones, in order. *)
Lemma values_of_Add m k v k' :
  values_of (url.Add m k v) k'
  = values_of m k' ++ (if decide (k = k') then [v] else []).
Proof.
  unfold values_of, url.Add. destruct (decide (k = k')) as [->|Hne].
  - by rewrite lookup_insert_eq.
  - rewrite lookup_insert_ne by done. by rewrite app_nil_r.
Qed.

Lemma values_of_foldl_Add {A} (kf vf : A → string) m (l : list A) k :
  values_of (foldl (λ m x, url.Add m (kf x) (vf x)) m l) k
  = values_of m k ++ (vf <$> filter (λ x, kf x = k) l).
Proof.
  revert m; induction l as [|x l IH]; intros m; simpl.
  - by rewrite app_nil_r.
  - rewrite IH, values_of_Add, filter_cons.
    destruct (decide (kf x = k)); simpl.
    + by rewrite <- app_assoc.
    + by rewrite app_nil_r.
Qed.

Lemma pairs_of_filter v keys k :
  NoDup keys →
  snd <$> filter (λ kv, kv.1 = k) (pairs_of v keys)
  = if decide (k ∈ keys) then values_of v k else [].
Proof.
  unfold pairs_of. induction keys as [|k' keys IH]; intros Hnd; [done|].
  apply NoDup_cons in Hnd as [Hk' Hnd].
  rewrite bind_cons, filter_app, fmap_app, IH by done.
  assert (Hhead : ∀ l : list string,
            snd <$> filter (λ kv : string * string, kv.1 = k) (pair k' <$> l)
            = if decide (k' = k) then l else []).
  { intros l. destruct (decide (k' = k)) as [E|E];
      induction l as [|x l IHl]; try done;
      rewrite fmap_cons, filter_cons; cbn [fst].
    - rewrite decide_True by done. rewrite fmap_cons. cbn [snd]. by f_equal.
    - by rewrite decide_False. }
  rewrite Hhead. destruct (decide (k' = k)) as [->|Hne].
  - rewrite (decide_False (P := k ∈ keys)) by done.
    rewrite (decide_True (P := k ∈ k :: keys)) by in_list. apply app_nil_r.
  - simpl. destruct (decide (k ∈ keys)) as [Hin|Hin].
    + rewrite decide_True; [done|]. in_list.
    + rewrite decide_False; [done|]. rewrite elem_of_cons. intros [|]; congruence.
Qed.

(** What the handler parses back from the encoded query is the map
    that was encoded, key by key. *)
Lemma ParseQuery_Encode v k :
  values_of (url.ParseQuery (url.Encode v)) k = values_of v k.
Proof.
  rewrite Encode_pairs, write_pairs_joined, ParseQuery_joined.
  rewrite (values_of_foldl_Add fst snd). unfold values_of at 1.
  rewrite lookup_empty. simpl.
  set (keys := merge_sort String.le (map fst (map_to_list v))).
  assert (Hperm : keys ≡ₚ (map_to_list v).*1) by apply merge_sort_Permutation.
  rewrite pairs_of_filter.
  2:{ rewrite Hperm. apply NoDup_fst_map_to_list. }
  destruct (decide (k ∈ keys)) as [Hin|Hin]; [done|].
  unfold values_of. destruct (v !! k) as [l|] eqn:Hk; [|done].
  exfalso. apply Hin. rewrite Hperm.
  apply list_elem_of_fmap. exists (k, l). split; [done|].
  by apply elem_of_map_to_list.
Qed.

Lemma Get_values_of v k : url.Get v k = default "" (head (values_of v k)).
Proof. unfold url.Get, values_of. by destruct (v !! k) as [[|x l]|]. Qed.

(** The query the handler parses holds, under every key, the values
    the request came with followed by the captured ones. *)
Lemma f_enter_Query ps st k :
  values_of (Query (req_URL (req (f_enter ps st)))) k
  = values_of (Query (req_URL (req st))) k ++ captured ps k.
Proof.
  unfold f_enter. cbn [req set_resp set_req req_URL].
  destruct ps as [|p ps].
  - rewrite bool_decide_eq_false_2 by (simpl; lia). by rewrite app_nil_r.
  - rewrite bool_decide_eq_true_2 by (simpl; lia).
    unfold Query at 1. cbn [RawQuery].
    rewrite ParseQuery_Encode. apply (values_of_foldl_Add Key Value).
Qed.

(** C4: [f] runs [next] on a request whose query holds, under every
    key, the values it came with followed by the values the router
    captured under that key; so every captured pair is among the query
    parameters the handler reads, and [Get] yields the first of these
    values.  The path is as it came. *)
Theorem path_params_merged_into_query ps st :
  let r' := req (f_enter ps st) in
  (∀ next, f next ps st = f_leave (next (f_enter ps st))) ∧
  Path (req_URL r') = Path (req_URL (req st)) ∧
  (∀ k, values_of (Query (req_URL r')) k
        = values_of (Query (req_URL (req st))) k ++ captured ps k) ∧
  (∀ p, p ∈ ps → Value p ∈ values_of (Query (req_URL r')) (Key p)) ∧
  (∀ k, url.Get (Query (req_URL r')) k
        = default "" (head (values_of (Query (req_URL (req st))) k ++ captured ps k))).
Proof.
  intros r'. subst r'. split; [done|]. split; [|split; [|split]].
  - unfold f_enter. cbn [req set_resp set_req req_URL]. by destruct (bool_decide _).
  - apply f_enter_Query.
  - intros p Hp. rewrite f_enter_Query. apply elem_of_app. right.
    unfold captured. apply list_elem_of_fmap. exists p. split; [done|].
    by apply list_elem_of_filter.
  - intros k. by rewrite Get_values_of, f_enter_Query.
Qed.

(** ** Beyond the claims: request ids *)

Lemma f_enter_resolved ps st :
  let h := req_Header (req st) in
  let h' := req_Header (req (f_enter ps st)) in
  present h' "Request-Id" ∧
  Header.Get h' "X-Request-Id" = Header.Get h "X-Request-Id" ∧
  resp (f_enter ps st)
  = responseWriter (resp st) StatusOK
      (Header.Get h' "Request-Id") (Header.Get h "X-Request-Id").
Proof.
  intros h h'. subst h'.
  pose proof (f_enter_Header ps st) as Hh. cbv zeta in Hh. fold h in Hh.
  assert (Hid : present (req_Header (req (f_enter ps st))) "Request-Id" ∧
                Header.Get (req_Header (req (f_enter ps st))) "X-Request-Id"
                = Header.Get h "X-Request-Id").
  { rewrite Hh. unfold present.
    destruct (decide (Header.Get h "Request-Id" = "")) as [Hr|Hr];
      [destruct (decide (Header.Get h "X-Request-Id" = "")) as [Hx|Hx]|].
    - rewrite Header_Get_Set_eq, Header_Get_Set_ne by done.
      split; [apply uuid_String_nonempty|done].
    - rewrite Header_Get_Set_eq, Header_Get_Set_ne by done. done.
    - done. }
  destruct Hid as [Hp Hx]. split; [done|]. split; [done|].
  by rewrite f_enter_resp, Hx.
Qed.

(** X1: whatever the request, the handler is called with a non-empty
    Request-Id on the request, X-Request-Id reads as it came, and the
    writer it gets is a fresh wrapper (status 200) that records these
    two values. *)
Theorem f_always_resolves_Request_Id ps st :
  let h := req_Header (req st) in
  let h' := req_Header (req (f_enter ps st)) in
  present h' "Request-Id" ∧
  Header.Get h' "X-Request-Id" = Header.Get h "X-Request-Id" ∧
  resp (f_enter ps st)
  = responseWriter (resp st) StatusOK
      (Header.Get h' "Request-Id") (Header.Get h "X-Request-Id").
Proof.
  intros h h'. subst h'.
  pose proof (f_enter_Header ps st) as Hh. cbv zeta in Hh. fold h in Hh.
  assert (Hid : present (req_Header (req (f_enter ps st))) "Request-Id" ∧
                Header.Get (req_Header (req (f_enter ps st))) "X-Request-Id"
                = Header.Get h "X-Request-Id").
  { rewrite Hh. unfold present.
    destruct (decide (Header.Get h "Request-Id" = "")) as [Hr|Hr];
      [destruct (decide (Header.Get h "X-Request-Id" = "")) as [Hx|Hx]|].
    - rewrite Header_Get_Set_eq, Header_Get_Set_ne by done.
      split; [apply uuid_String_nonempty|done].
    - rewrite Header_Get_Set_eq, Header_Get_Set_ne by done. done.
    - done. }
  destruct Hid as [Hp Hx]. split; [done|]. split; [done|].
  by rewrite f_enter_resp, Hx.
Qed.

(** X2: [f] changes no header entry but Request-Id, and leaves the
    method, the log, the clock and the generator as they were. *)
Theorem f_changes_Request_Id_only ps st :
  (∀ k, k ≠ "Request-Id" →
     req_Header (req (f_enter ps st)) !! k = req_Header (req st) !! k) ∧
  Method (req (f_enter ps st)) = Method (req st) ∧
  out (f_enter ps st) = out st ∧
  rfc1123 (f_enter ps st) = rfc1123 st ∧
  rfc3339 (f_enter ps st) = rfc3339 st ∧
  fresh (f_enter ps st) = fresh st.
Proof.
  split; [|done]. intros k Hk. rewrite f_enter_Header. simpl.
  repeat destruct (decide _); unfold Header.Set_;
    by rewrite ?lookup_insert_ne by done.
Qed.

(** X3: a request that went through [f] once keeps its headers, and
    with them its Request-Id, when it goes through [f] again. *)
Theorem f_keeps_a_resolved_Request_Id ps1 ps2 st :
  req_Header (req (f_enter ps2 (f_enter ps1 st))) = req_Header (req (f_enter ps1 st)).
Proof.
  destruct (f_enter_resolved ps1 st) as (Hp & _).
  rewrite (f_enter_Header ps2). simpl. by rewrite decide_False.
Qed.

(** ** Beyond the claims: the wrapper's status *)



(** X4: a response helper called on the writer [f] hands to the handler
    never falls back to 500: it passes the handler's status on and the
    wrapper records it, the Request-Id header of the response is the
    non-empty id resolved for the request, and X-Request-Id is what the
    request carried. *)
Theorem helpers_under_f_echo_the_resolved_id ps st now statusCode body :
  let st1 := f_enter ps st in
  let id := Header.Get (req_Header (req st1)) "Request-Id" in
  let w' := Response now (resp st1) statusCode body in
  id ≠ "" ∧
  Header_of w' !! "Request-Id" = Some [id] ∧
  Header_of w' !! "X-Request-Id"
  = Some [Header.Get (req_Header (req st)) "X-Request-Id"] ∧
  calls_of w' = calls_of (resp st) ++ [WriteHeader_call statusCode; Write_call body] ∧
  recorded_status w' = Some statusCode.
Proof.
  intros st1 id w'. subst st1 id w'.
  destruct (f_enter_resolved ps st) as (Hp & Hx & Hw).
  cbv zeta in Hp, Hx, Hw.
  split; [exact Hp|]. rewrite Hw.
  pose proof (wrote_Write now _ statusCode _ body
                (responseHeader_wrote now
                   (responseWriter (resp st) StatusOK
                      (Header.Get (req_Header (req (f_enter ps st))) "Request-Id")
                      (Header.Get (req_Header (req st)) "X-Request-Id")) statusCode))
    as (_ & Hc & Hr & Hxr).
  repeat split; try done.
Qed.

Lemma replay_responseWriter e sc rid xid cs :
  replay (responseWriter e sc rid xid) cs
  = responseWriter (replay e cs)
      (foldl (λ sc c, match c with
                      | WriteHeader_call statusCode => statusCode
                      | Write_call _ => sc
                      end) sc cs) rid xid.
Proof.
  revert e sc; induction cs as [|[c|b] cs IH]; intros e sc; simpl; [done| |];
    apply IH.
Qed.

Lemma calls_of_replay w cs : calls_of (replay w cs) = calls_of w ++ cs.
Proof.
  revert w; induction cs as [|[c|b] cs IH]; intros w; simpl.
  - by rewrite app_nil_r.
  - rewrite IH, calls_of_WriteHeader, <- app_assoc. done.
  - rewrite IH, calls_of_Write, <- app_assoc. done.
Qed.

(** X5: the wrapper passes every [WriteHeader] and [Write] on to the
    writer it embeds, in order, and keeps the ids it was made with; its
    record starts at 200 and is the code of the latest [WriteHeader].
    A client gets the status of the first call, so once a handler calls
    [WriteHeader] twice on a writer not yet written to, the record is
    the second code and the status sent is the first. *)
Theorem responseWriter_records_the_latest_status e rid xid cs :
  let w := replay (newResponseWriter e rid xid) cs in
  w = responseWriter (replay e cs) (latest_status cs) rid xid ∧
  calls_of w = calls_of e ++ cs ∧
  Header_of w = Header_of e ∧
  (∀ a b cs', calls_of e = [] →
     cs = WriteHeader_call a :: cs' ++ [WriteHeader_call b] →
     recorded_status w = Some b ∧ status_sent (calls_of w) = Some a).
Proof.
  intros w. subst w. unfold newResponseWriter. rewrite replay_responseWriter.
  split; [done|]. cbn [calls_of Header_of recorded_status].
  split; [apply calls_of_replay|]. split.
  - clear. revert e. induction cs as [|[c|b] cs IH]; intros e; simpl; [done| |].
    + by rewrite IH, Header_of_WriteHeader.
    + by rewrite IH, Header_of_Write.
  - intros a b cs' He ->. split.
    + simpl. by rewrite foldl_app.
    + by rewrite calls_of_replay, He.
Qed.

(** ** Beyond the claims: panics *)


(** X7: when the handler panics without having touched the writer,
    the request served through [f] and the guard is answered on the
    caller's writer with status 500, the fixed text, the Date header,
    and the Request-Id resolved for the request, which is not empty. *)
Theorem panic_response_carries_the_request_id next ps st v st' :
  next (f_enter ps st) = Panic v st' →
  resp st' = resp (f_enter ps st) →
  let id := Header.Get (req_Header (req (f_enter ps st))) "Request-Id" in
  ∃ st'',
    f (recoverPanic next) ps st = Return st'' ∧
    calls_of (resp st'')
    = calls_of (resp st) ++ [WriteHeader_call 500; Write_call "httpserver got panic"] ∧
    Header_of (resp st'') !! "Date" = Some [rfc1123 st'] ∧
    Header_of (resp st'') !! "Request-Id" = Some [id] ∧
    Header_of (resp st'') !! "X-Request-Id"
    = Some [Header.Get (req_Header (req st)) "X-Request-Id"] ∧
    id ≠ "".
Proof.
  intros Hp Hw id. subst id.
  destruct (f_enter_resolved ps st) as (Hid & Hx & Hr). cbv zeta in Hid, Hx, Hr.
  unfold f, recoverPanic. rewrite Hp. eexists. split; [reflexivity|].
  cbn [f_leave resp print set_resp]. rewrite Hw, Hr.
  unfold ResponseString, responseHeader. simpl.
  autorewrite with writer. unfold Header.Set_.
  rewrite lookup_insert_eq.
  rewrite (lookup_insert_ne _ "X-Request-Id" "Request-Id") by done.
  rewrite lookup_insert_eq.
  rewrite !(lookup_insert_ne _ _ "Date") by done. rewrite lookup_insert_eq.
  rewrite <- app_assoc. done.
Qed.

(** ** Beyond the claims: the route table *)

Lemma Server_method_registers v path handler mws s :
  Server_method v path handler mws s
  = register match v with PUT => "POST" | _ => verb_name v end
      path (decorate s handler mws) s.
Proof. by destruct v. Qed.

Lemma Group_method_registers v g path handler mws s :
  Group_method v g path handler mws s
  = register (verb_name v) (prefix g +:+ path) (group_decorate g s handler mws) s.
Proof. by destruct v. Qed.

Lemma guarded_never_panics next : never_panics (f (recoverPanic next)).
Proof.
  intros ps st. unfold f, recoverPanic.
  destruct (next (f_enter ps st)); simpl; eauto.
Qed.

Lemma Server_FILES_registered filePath rootPath mws s s' :
  Server_FILES filePath rootPath mws s = Registered s' →
  ends_with filepath_token filePath ∧
  s' = register "GET" filePath (decorate s (serve_file rootPath) mws) s.
Proof.
  unfold Server_FILES, Router_Handle.
  destruct (bool_decide (String.length filePath < 10)%nat) eqn:Hl; [done|].
  destruct (bool_decide (Str.drop (String.length filePath - 10) filePath ≠ "/*filepath"))
    eqn:Hd; [done|].
  simpl. destruct (router_refuses _ _ _); [done|].
  intros [= <-]. split; [|done].
  apply bool_decide_eq_false_1 in Hl. apply bool_decide_eq_false_1 in Hd.
  destruct (Str_split_at (String.length filePath - 10) filePath) as (p & Hp & _); [lia|].
  exists p. rewrite Hp at 1. f_equal.
  by destruct (decide (Str.drop (String.length filePath - 10) filePath = "/*filepath")).
Qed.

Lemma register_Forall (P : route → Prop) method path handle s :
  Forall P (handlers s) → P (mkRoute method path handle) →
  Forall P (handlers (register method path handle s)).
Proof.
  intros Hs Hn. unfold register. cbn [handlers].
  apply Forall_app. split; [done|]. by apply Forall_singleton.
Qed.

(** X8: however a server is built from [New] with the methods of the
    server and of its groups, every handle in its route table is one
    that returns whatever the handler does, panics included, and every
    route is under one of the seven verbs. *)
Theorem every_registered_handle_is_guarded s :
  configured s →
  Forall (λ rt, never_panics (route_handle rt) ∧ known_method rt) (handlers s).
Proof.
  assert (Hv : ∀ v, verb_name v ∈ verb_name <$> [GET; HEAD; POST; PUT; DELETE; PATCH; OPTIONS]).
  { intros v. apply list_elem_of_fmap. exists v. split; [done|].
    destruct v; repeat constructor. }
  induction 1 as [opts|v path handler mws s _ IH|path handler mws s _ IH
                 |filePath rootPath mws s s' _ IH Hf|g v path handler mws s _ IH
                 |g filePath rootPath mws s s' _ IH Hf].
  - unfold httpserver_New. destruct (EnableLogger opts); apply Forall_nil_2.
  - rewrite Server_method_registers. apply register_Forall; [done|].
    split; [apply guarded_never_panics|]. unfold known_method. cbn [route_method].
    destruct v; first [apply (Hv POST)|apply Hv].
  - unfold Server_HEADGET. apply register_Forall; [apply register_Forall; [done|]|].
    + split; [apply guarded_never_panics|apply (Hv HEAD)].
    + split; [apply guarded_never_panics|apply (Hv GET)].
  - apply Server_FILES_registered in Hf as [_ ->]. apply register_Forall; [done|].
    split; [apply guarded_never_panics|apply (Hv GET)].
  - rewrite Group_method_registers. apply register_Forall; [done|].
    split; [apply guarded_never_panics|apply Hv].
  - apply Server_FILES_registered in Hf as [_ ->]. apply register_Forall; [done|].
    split; [apply guarded_never_panics|apply (Hv GET)].
Qed.

(** X9: a server built from [New] with the methods of the server alone
    has no route under PUT, whatever was registered and in whatever
    order. *)
Theorem Server_methods_bind_nothing_under_PUT s :
  server_configured s → ∀ path, bound s "PUT" path = [].
Proof.
  induction 1 as [opts|v path handler mws s _ IH|path handler mws s _ IH
                 |filePath rootPath mws s s' _ IH Hf]; intros path'.
  - unfold httpserver_New. by destruct (EnableLogger opts).
  - rewrite Server_method_registers, bound_register, IH.
    rewrite decide_False; [done|]. intros [Hm _]. by destruct v.
  - unfold Server_HEADGET. rewrite !bound_register, IH.
    by rewrite !decide_False by (intros [? _]; done).
  - apply Server_FILES_registered in Hf as [_ ->]. rewrite bound_register, IH.
    by rewrite decide_False by (intros [? _]; done).
Qed.

(** X10: a [FILES] registration that goes through has checked the
    token, adds one route, under GET, and changes nothing bound under
    any other method: HEAD requests for the files are not routed. *)
Theorem FILES_binds_GET_only filePath rootPath mws s s' :
  Server_FILES filePath rootPath mws s = Registered s' →
  ends_with filepath_token filePath ∧
  handlers s'
  = handlers s ++ [mkRoute "GET" filePath (decorate s (serve_file rootPath) mws)] ∧
  port s' = port s ∧
  middlewares s' = middlewares s ∧
  (∀ method path, method ≠ "GET" → bound s' method path = bound s method path).
Proof.
  intros Hf. apply Server_FILES_registered in Hf as [He ->].
  split; [done|]. repeat split.
  intros method path Hm. rewrite bound_register.
  rewrite decide_False by (intros [? _]; done). apply app_nil_r.
Qed.

(** X11: the handler [FILES] registers, run behind [f], asks the file
    server for the first "filepath" value of the merged query: the
    first one the request's own query string carries, and the captured
    one only when the query string carries none. *)
Theorem FILES_serves_the_first_filepath_value rootPath ps st :
  ∃ r',
    serve_file rootPath (f_enter ps st)
    = FileServer rootPath (set_req (f_enter ps st) r') ∧
    Method r' = Method (req st) ∧
    req_Header r' = req_Header (req (f_enter ps st)) ∧
    RawQuery (req_URL r') = RawQuery (req_URL (req (f_enter ps st))) ∧
    Path (req_URL r')
    = default "" (head (values_of (Query (req_URL (req st))) "filepath"
                        ++ captured ps "filepath")) ∧
    (∀ x rest, values_of (Query (req_URL (req st))) "filepath" = x :: rest →
       Path (req_URL r') = x) ∧
    (values_of (Query (req_URL (req st))) "filepath" = [] →
       Path (req_URL r') = default "" (head (captured ps "filepath"))).
Proof.
  eexists. split; [reflexivity|]. cbn [Method req_Header req_URL RawQuery Path].
  assert (HP : url.Get (Query (req_URL (req (f_enter ps st)))) "filepath"
               = default "" (head (values_of (Query (req_URL (req st))) "filepath"
                                   ++ captured ps "filepath")))
    by (by rewrite Get_values_of, f_enter_Query).
  split; [done|]. split; [done|]. split; [done|]. split; [exact HP|]. split.
  - intros x rest Hq. rewrite HP, Hq. done.
  - intros Hq. rewrite HP, Hq. done.
Qed.

(** ** Beyond the claims: helpers and their errors *)

(** X12: [ResponseHTML] and [ResponseMultiHTML] render before they
    write.  When rendering fails they return the error and the writer
    is exactly as it was, no header set and no status sent; when it
    succeeds they write the text with status 200 (500 on a writer that
    is not the package's) and return [nil]. *)
Theorem HTML_helpers_write_only_after_rendering now w data funcMap :
  (∀ tmplName tmpl,
     match RenderHTML tmplName tmpl data funcMap with
     | inr err => ResponseHTML now w tmplName tmpl data funcMap = (w, Some err)
     | inl html =>
         (ResponseHTML now w tmplName tmpl data funcMap).2 = None ∧
         wrote now w StatusOK [Write_call html]
           (ResponseHTML now w tmplName tmpl data funcMap).1
     end) ∧
  (∀ mainTmplName tmplNameToTmpl visit,
     match RenderMultiHTML mainTmplName tmplNameToTmpl visit data funcMap with
     | inr err =>
         ResponseMultiHTML now w mainTmplName tmplNameToTmpl visit data funcMap
         = (w, Some err)
     | inl html =>
         (ResponseMultiHTML now w mainTmplName tmplNameToTmpl visit data funcMap).2 = None ∧
         wrote now w StatusOK [Write_call html]
           (ResponseMultiHTML now w mainTmplName tmplNameToTmpl visit data funcMap).1
     end).
Proof.
  split.
  - intros tmplName tmpl. unfold ResponseHTML.
    destruct (RenderHTML tmplName tmpl data funcMap) as [html|err]; [|done].
    split; [done|]. apply (wrote_Write now w StatusOK), responseHeader_wrote.
  - intros mainTmplName tmplNameToTmpl visit. unfold ResponseMultiHTML.
    destruct (RenderMultiHTML _ _ _ _ _) as [html|err]; [|done].
    split; [done|]. apply (wrote_Write now w StatusOK), responseHeader_wrote.
Qed.

(** X13: [ResponseJSON] has sent the status and the JSON content type
    by the time encoding fails.  On a writer not yet written to, the
    client's status is then the one passed to [ResponseJSON] (500 on a
    writer that is not the package's), and an error response written
    afterwards with another status does not change it. *)
Theorem failed_ResponseJSON_has_sent_the_status now w statusCode body err :
  json_Marshal body = inr err →
  calls_of w = [] →
  let w1 := (ResponseJSON now w statusCode body).1 in
  (ResponseJSON now w statusCode body).2 = Some err ∧
  Header_of w1 !! "Content-Type" = Some ["application/json"] ∧
  status_sent (calls_of w1) = Some (status_written w statusCode) ∧
  (∀ now' statusCode' body',
     status_sent (calls_of (Response now' w1 statusCode' body'))
     = Some (status_written w statusCode)).
Proof.
  intros Hm Hc w1. subst w1. unfold ResponseJSON, Encoder_Encode. rewrite Hm. simpl.
  assert (Hs : status_written (Header_Set w "Content-Type" "application/json") statusCode
               = status_written w statusCode) by (by destruct w).
  assert (Hcalls : calls_of (responseHeader now (Header_Set w "Content-Type" "application/json")
                               statusCode)
                   = [WriteHeader_call (status_written w statusCode)]).
  { by rewrite responseHeader_calls, calls_of_Header_Set, Hc, Hs. }
  split; [done|]. split; [|split].
  - unfold responseHeader. destruct w; simpl.
    + unfold Header.Set_. rewrite lookup_insert_ne by done. apply lookup_insert_eq.
    + autorewrite with writer. unfold Header.Set_.
      rewrite !lookup_insert_ne by done. apply lookup_insert_eq.
  - by rewrite Hcalls.
  - intros now' statusCode' body'. unfold Response.
    rewrite calls_of_Write, responseHeader_calls, Hcalls. done.
Qed.

(** ** Beyond the claims: templates *)

Lemma attach_skips_main mainTmplName (t : Template) visit :
  attach mainTmplName t visit
  = attach mainTmplName t (filter (λ kv, kv.1 ≠ mainTmplName) visit).
Proof.
  revert t; induction visit as [|[k v] visit IH]; intros t; [done|].
  rewrite filter_cons. cbn [attach fst].
  destruct (decide (k ≠ mainTmplName)) as [Hk|Hk]; [|apply IH].
  cbn [attach]. rewrite decide_True by done.
  destruct (Parse (New t k) v); [apply IH|done].
Qed.

(** X14: the loop of [RenderMultiHTML] never parses an entry under the
    main name: the result is the same with these entries left out of
    the visit, the text of the main template is taken from the map
    alone, and a map without the main name renders like the same map
    with the main name bound to the empty text. *)
Theorem RenderMultiHTML_takes_main_from_the_map mainTmplName tmplNameToTmpl visit data funcMap :
  RenderMultiHTML mainTmplName tmplNameToTmpl visit data funcMap
  = RenderMultiHTML mainTmplName tmplNameToTmpl
      (filter (λ kv, kv.1 ≠ mainTmplName) visit) data funcMap ∧
  (∀ text,
     RenderMultiHTML mainTmplName tmplNameToTmpl ((mainTmplName, text) :: visit) data funcMap
     = RenderMultiHTML mainTmplName tmplNameToTmpl visit data funcMap) ∧
  (tmplNameToTmpl !! mainTmplName = None →
     RenderMultiHTML mainTmplName (<[mainTmplName := EmptyString]> tmplNameToTmpl)
       ((mainTmplName, EmptyString) :: visit) data funcMap
     = RenderMultiHTML mainTmplName tmplNameToTmpl visit data funcMap).
Proof.
  split; [|split].
  - unfold RenderMultiHTML. destruct (Parse _ _); [|done].
    by rewrite attach_skips_main.
  - intros text. unfold RenderMultiHTML. destruct (Parse _ _); [|done].
    cbn [attach]. by rewrite decide_False by (intros H; by apply H).
  - intros Hm. unfold RenderMultiHTML. rewrite lookup_insert_eq, Hm. simpl.
    destruct (Parse _ _); [|done].
    cbn [attach]. by rewrite decide_False by (intros H; by apply H).
Qed.

(** ** Beyond the claims: one verb, one method *)



End Package.

(** ** Templates, on the fragment engine *)


Lemma fragment_Parse_inv (t : fragment.tmpl) (text : string) (t' : fragment.tmpl) :
  fragment.tmpl_Parse t text = inl t' →
  ∃ nodes, fragment.parse text = Some nodes ∧
    fragment.tmpl_name t' = fragment.tmpl_name t ∧
    fragment.tmpl_set t' = <[fragment.tmpl_name t := Some nodes]> (fragment.tmpl_set t).
Proof.
  unfold fragment.tmpl_Parse.
  destruct (fragment.tmpl_set t !! fragment.tmpl_name t) as [[?|]|];
    destruct (fragment.parse text) as [nodes|]; try done;
    intros [= <-]; by exists nodes.
Qed.

(** The loop leaves every visited name but the main one bound to the
    parse of its text, and every other name as it was. *)
Lemma fragment_attach (dyn : Type) (mainTmplName : string) (visit : list (string * string)) :
  ∀ t t' : fragment.tmpl,
    NoDup visit.*1 →
    attach dyn (engine := fragment.engine (any dyn)) mainTmplName t visit = inl t' →
    (∀ k v, (k, v) ∈ visit → k ≠ mainTmplName →
       fragment.tmpl_set t' !! k = Some (fragment.parse v)) ∧
    (∀ k, k = mainTmplName ∨ k ∉ visit.*1 →
       fragment.tmpl_set t' !! k = fragment.tmpl_set t !! k).
Proof.
  induction visit as [|[k0 v0] visit IH]; intros t t' Hnd Ha; simpl in Ha.
  - injection Ha as <-. split; [|done]. intros k v Hin. by apply elem_of_nil in Hin.
  - rewrite fmap_cons in Hnd. apply NoDup_cons in Hnd as [Hk0 Hnd]. simpl in Hk0.
    destruct (decide (k0 ≠ mainTmplName)) as [Hne|Heq].
    + destruct (fragment.tmpl_Parse (fragment.tmpl_New t k0) v0) as [t1|err] eqn:Hp;
        [|done].
      apply fragment_Parse_inv in Hp as (nodes & Hparse & Hname & Hset).
      simpl in Hset.
      destruct (IH t1 t' Hnd Ha) as [Hin Hout]. split.
      * intros k v Hkv Hk. apply elem_of_cons in Hkv as [[= -> ->]|Hkv]; [|by apply Hin].
        rewrite Hout by (by right). rewrite Hset, Hparse. apply lookup_insert_eq.
      * intros k Hk. rewrite fmap_cons, not_elem_of_cons in Hk. simpl in Hk.
        assert (k ≠ k0) by (destruct Hk as [->|[? _]]; done).
        rewrite Hout by (destruct Hk as [|[_ ?]]; auto).
        rewrite Hset. by rewrite !lookup_insert_ne.
    + assert (k0 = mainTmplName) as -> by (by destruct (decide (k0 = mainTmplName)); [|exfalso; auto]).
      destruct (IH t t' Hnd Ha) as [Hin Hout]. split.
      * intros k v Hkv Hk. apply elem_of_cons in Hkv as [[= -> ->]|Hkv]; [done|by apply Hin].
      * intros k Hk. apply Hout. rewrite fmap_cons, not_elem_of_cons in Hk.
        destruct Hk as [|[_ ?]]; auto.
Qed.

Lemma fragment_attach_parsed (dyn : Type) (mainTmplName : string) (visit : list (string * string)) :
  ∀ t t' : fragment.tmpl,
    attach dyn (engine := fragment.engine (any dyn)) mainTmplName t visit = inl t' →
    ∀ k v, (k, v) ∈ visit → k ≠ mainTmplName → is_Some (fragment.parse v).
Proof.
  induction visit as [|[k0 v0] visit IH]; intros t t' Ha k v Hin Hk.
  - by apply elem_of_nil in Hin.
  - simpl in Ha. destruct (decide (k0 ≠ mainTmplName)) as [Hne|Heq].
    + destruct (fragment.tmpl_Parse (fragment.tmpl_New t k0) v0) as [t1|err] eqn:Hp;
        [|done].
      apply fragment_Parse_inv in Hp as (nodes & Hparse & _).
      apply elem_of_cons in Hin as [[= -> ->]|Hin]; [by rewrite Hparse|].
      by apply (IH t1 t' Ha k v).
    + apply elem_of_cons in Hin as [[= -> ->]|Hin]; [done|].
      by apply (IH t t' Ha k v).
Qed.

Lemma fragment_attach_total (dyn : Type) (mainTmplName : string) (visit : list (string * string)) :
  ∀ t : fragment.tmpl,
    (∀ k v, (k, v) ∈ visit → k ≠ mainTmplName → is_Some (fragment.parse v)) →
    ∃ t', attach dyn (engine := fragment.engine (any dyn)) mainTmplName t visit = inl t'.
Proof.
  induction visit as [|[k0 v0] visit IH]; intros t Hall; simpl.
  - by exists t.
  - destruct (decide (k0 ≠ mainTmplName)) as [Hne|Heq].
    + destruct (Hall k0 v0) as [nodes Hparse]; [by left|done|].
      unfold fragment.tmpl_Parse, fragment.tmpl_New. cbn [fragment.tmpl_set fragment.tmpl_name].
      rewrite lookup_insert_eq, Hparse.
      apply IH. intros k v Hin. apply Hall. by right.
    + apply IH. intros k v Hin. apply Hall. by right.
Qed.

Lemma example_templates_list :
  map_to_list example_templates = [("main", example_main); ("frag", "X")].
Proof. vm_compute. reflexivity. Qed.









(** ** The statements at the sample values *)

(** C10 at GET /users/7?lang=en, which carries no request id. *)
Lemma generated_id_only_under_Request_Id_sample :
  absent (req_Header (req sample_world)) "Request-Id" ∧
  absent (req_Header (req sample_world)) "X-Request-Id" ∧
  Header_of (responseHeader (rfc1123 sample_world)
               (resp (f_enter [mkParam "id" "7"] sample_world)) StatusOK)
    !! "X-Request-Id" = Some [""] ∧
  Header_of (responseHeader (rfc1123 sample_world)
               (resp (f_enter [mkParam "id" "7"] sample_world)) StatusOK)
    !! "Request-Id" = Some ["12345678-9abc-4def-8123-456789abcdef"].
Proof.
  split; [reflexivity|]. split; [reflexivity|].
  destruct (generated_id_only_under_Request_Id [mkParam "id" "7"] sample_world
              (rfc1123 sample_world) StatusOK eq_refl eq_refl)
    as (_ & _ & _ & Hid & Hx).
  split; [exact Hx|exact Hid].
Defined.



(** [Response] on a writer that is not the package's: the status is
    500, and the body follows it. *)
Lemma Response_on_foreign_writer_writes_body :
  let w' := Response "Sat, 31 Oct 2026 09:00:00 UTC" (Foreign ∅ []) StatusOK "hello" in
  calls_of w' = [WriteHeader_call 500; Write_call "hello"] ∧
  status_sent (calls_of w') = Some 500 ∧
  body_of (calls_of w') ≠ "".
Proof. repeat split. discriminate. Qed.

(** C5 as stated fails twice.  For a group: the path "path" is shorter
    than the token and does not end with it, and the group whose prefix
    is "/static/*file" registers it.  For a path that ends with the
    token: "static/*filepath" passes the test of [FILES] and is refused
    by the router, for it does not begin with a slash. *)
Lemma Group_FILES_short_path_registers :
  (¬ ends_with filepath_token "path" ∧
   Group_FILES sample_value fmt_sample Server_chain FileServer_empty sample_router_refuses
     (mkGroup "/static/*file" []) "path" "/var/www" [] empty_server
   = Registered
       (Server_GET sample_value fmt_sample Server_chain
          "/static/*filepath" (serve_file FileServer_empty "/var/www") [] empty_server)) ∧
  (ends_with filepath_token "static/*filepath" ∧
   Server_FILES sample_value fmt_sample Server_chain FileServer_empty sample_router_refuses
     "static/*filepath" "/var/www" [] empty_server
   = RegistrationPanic "path must begin with '/' in path 'static/*filepath'").
Proof.
  split; split; [|reflexivity|by exists "static"|reflexivity].
  intros [p Hp]. apply (f_equal String.length) in Hp.
  rewrite Str_length_app in Hp. simpl in Hp. lia.
Qed.

(** [FILES] on a path it has registered before: the test of [FILES]
    passes again and the router refuses the second handle. *)
Lemma Server_FILES_twice :
  ∃ s',
    Server_FILES sample_value fmt_sample Server_chain FileServer_empty sample_router_refuses
      "/static/*filepath" "/var/www" [] empty_server = Registered s' ∧
    Server_FILES sample_value fmt_sample Server_chain FileServer_empty sample_router_refuses
      "/static/*filepath" "/srv" [] s'
    = RegistrationPanic "a handle is already registered for path '/static/*filepath'".
Proof. eexists. split; reflexivity. Qed.

(** On a server without routes: after PUT /items nothing is bound
    under PUT, and the handler is bound under POST. *)
Lemma Server_PUT_on_empty_server :
  bound (Server_PUT sample_value fmt_sample Server_chain "/items" boom [] empty_server) "PUT" "/items" = [] ∧
  bound (Server_PUT sample_value fmt_sample Server_chain "/items" boom [] empty_server) "POST" "/items"
  = [decorate sample_value fmt_sample Server_chain empty_server boom []].
Proof. split; reflexivity. Qed.

(** [ResponseJSON] at the sample values: a channel is refused and
    nothing is written after the status; an integer is written in
    decimal with the encoder's newline. *)
Lemma ResponseJSON_on_sample_values :
  (let res := ResponseJSON sample_value json_sample http_Write_error
                "Sat, 31 Oct 2026 09:00:00 UTC"
                (newResponseWriter (Foreign ∅ []) "id-1" "") StatusOK (of_dyn a_channel) in
   res.2 = Some "json: unsupported type: chan int" ∧
   calls_of res.1 = [WriteHeader_call 200]) ∧
  (let res := ResponseJSON sample_value json_sample http_Write_error
                "Sat, 31 Oct 2026 09:00:00 UTC"
                (newResponseWriter (Foreign ∅ []) "id-1" "") StatusOK (of_dyn (an_int 7)) in
   res.2 = None ∧
   calls_of res.1 = [WriteHeader_call 200; Write_call ("7" +:+ newline)]).
Proof. split; split; reflexivity. Qed.

(** C6 as stated fails for a value that can be encoded when the writer
    refuses the body: with status 204 the encoding of 7 is handed to
    [Write], and [ResponseJSON] returns the error of the HTTP server's
    writer, not [nil]. *)
Lemma ResponseJSON_encodable_value_with_status_204 :
  json_sample (of_dyn (an_int 7)) = inl "7" ∧
  (let res := ResponseJSON sample_value json_sample http_Write_error
                "Sat, 31 Oct 2026 09:00:00 UTC"
                (newResponseWriter (Foreign ∅ []) "id-1" "") 204 (of_dyn (an_int 7)) in
   res.2 = Some ErrBodyNotAllowed ∧
   res.2 ≠ None ∧
   calls_of res.1 = [WriteHeader_call 204; Write_call ("7" +:+ newline)]).
Proof. split; [reflexivity|]. repeat split. discriminate. Qed.

(** GET /users/7?lang=en with the captured pair id=7: the handler sees
    the generated id and the merged query; with X-Request-Id: abc on
    the request it sees that value instead. *)
Lemma f_enter_on_sample_request :
  let st' := f_enter [mkParam "id" "7"] sample_world in
  req_Header (req st') !! "Request-Id" = Some ["12345678-9abc-4def-8123-456789abcdef"] ∧
  RawQuery (req_URL (req st')) = "id=7&lang=en" ∧
  url.Get (Query (req_URL (req st'))) "id" = "7" ∧
  url.Get (Query (req_URL (req st'))) "lang" = "en".
Proof. repeat split; vm_compute; reflexivity. Qed.

Lemma f_enter_with_X_Request_Id :
  let r := mkRequest "GET" (mkURL "/" "") {[ "X-Request-Id" := ["abc"] ]} in
  let st' := f_enter [] (set_req sample_world r) in
  req_Header (req st') !! "Request-Id" = Some ["abc"] ∧
  resp st' = responseWriter (Foreign ∅ []) StatusOK "abc" "abc".
Proof. split; vm_compute; reflexivity. Qed.

(** ** Beyond the claims: visiting order, on the fragment engine *)

(** X15: on the fragment engine, the text [RenderMultiHTML] yields does
    not depend on the order in which Go visits the map: if it yields a
    text for one enumeration of the map, it yields the same text for
    every other. *)
Theorem RenderMultiHTML_visiting_order (dyn : Type) (data : any dyn)
    mainTmplName tmplNameToTmpl visit visit' funcMap html :
  visit ≡ₚ map_to_list tmplNameToTmpl →
  visit' ≡ₚ map_to_list tmplNameToTmpl →
  RenderMultiHTML dyn (engine := fragment.engine (any dyn))
    mainTmplName tmplNameToTmpl visit data funcMap = inl html →
  RenderMultiHTML dyn (engine := fragment.engine (any dyn))
    mainTmplName tmplNameToTmpl visit' data funcMap = inl html.
Proof.
  intros Hperm Hperm' Hr. unfold RenderMultiHTML in *.
  destruct (Parse _ _) as [t1|err]; [|done].
  destruct (attach dyn (engine := fragment.engine (any dyn)) mainTmplName t1 visit)
    as [t2|err] eqn:Ha; [|done].
  assert (Hvv : visit' ≡ₚ visit) by (by rewrite Hperm, Hperm').
  assert (Hnd : NoDup visit.*1) by (rewrite Hperm; apply NoDup_fst_map_to_list).
  assert (Hnd' : NoDup visit'.*1) by (rewrite Hperm'; apply NoDup_fst_map_to_list).
  destruct (fragment_attach_total dyn mainTmplName visit' t1) as [t2' Ha'].
  { intros k v Hin. apply (fragment_attach_parsed dyn mainTmplName visit t1 t2 Ha).
    by rewrite <- Hvv. }
  rewrite Ha'.
  destruct (fragment_attach dyn mainTmplName visit t1 t2 Hnd Ha) as [Hin Hout].
  destruct (fragment_attach dyn mainTmplName visit' t1 t2' Hnd' Ha') as [Hin' Hout'].
  assert (Hset : fragment.tmpl_set t2' = fragment.tmpl_set t2).
  { apply map_eq. intros k.
    destruct (decide (k = mainTmplName)) as [->|Hk].
    { by rewrite Hout, Hout' by (by left). }
    destruct (decide (k ∈ visit.*1)) as [Hkin|Hkin].
    - apply list_elem_of_fmap in Hkin as ([k1 v] & -> & Hkv). simpl in *.
      rewrite (Hin k1 v Hkv Hk). apply Hin'; [|done]. by rewrite Hvv.
    - rewrite Hout by (by right). apply Hout'. right. by rewrite Hvv. }
  simpl in *. unfold fragment.tmpl_ExecuteTemplate in *. by rewrite Hset.
Qed.

(** ** The extra statements at the sample values *)


(** X7 at a handler that panics at once. *)
Lemma panic_response_carries_the_request_id_sample :
  ∃ st'',
    f (recoverPanic sample_value fmt_sample boom) [] sample_world = Return st'' ∧
    calls_of (resp st'') = [WriteHeader_call 500; Write_call "httpserver got panic"] ∧
    Header_of (resp st'') !! "Request-Id" = Some ["12345678-9abc-4def-8123-456789abcdef"].
Proof.
  destruct (panic_response_carries_the_request_id sample_value fmt_sample boom []
              sample_world "boom" (f_enter [] sample_world) eq_refl eq_refl)
    as (st'' & Hr & Hc & _ & Hid & _).
  exists st''. split; [exact Hr|]. split; [exact Hc|exact Hid].
Defined.

(** X8 at a server with one route of the server and one of a group. *)
Lemma every_registered_handle_is_guarded_sample :
  let s := Group_method sample_value fmt_sample Group_chain PUT
             (mkGroup "/api" []) "/items" boom []
             (Server_method sample_value fmt_sample Server_chain GET "/" boom []
                (httpserver_New silent_log (mkOpts 8080 true))) in
  length (handlers s) = 2%nat ∧
  Forall (λ rt, never_panics (route_handle rt) ∧ known_method rt) (handlers s).
Proof.
  split; [reflexivity|].
  apply (every_registered_handle_is_guarded sample_value fmt_sample Server_chain
           Group_chain FileServer_empty sample_router_refuses silent_log).
  apply c_group_method, c_method, c_New.
Defined.

(** X9 at a server on which PUT, POST and FILES were called. *)
Lemma Server_methods_bind_nothing_under_PUT_sample :
  ∃ s',
    Server_FILES sample_value fmt_sample Server_chain FileServer_empty sample_router_refuses
      "/static/*filepath" "/var/www" []
      (Server_method sample_value fmt_sample Server_chain POST "/items" boom []
         (Server_method sample_value fmt_sample Server_chain PUT "/items" boom []
            (httpserver_New silent_log (mkOpts 8080 false))))
    = Registered s' ∧
    length (handlers s') = 3%nat ∧
    bound s' "PUT" "/items" = [].
Proof.
  eexists. split; [reflexivity|]. split; [reflexivity|].
  apply (Server_methods_bind_nothing_under_PUT sample_value fmt_sample Server_chain
           FileServer_empty sample_router_refuses silent_log).
  apply sc_FILES with
    (filePath := "/static/*filepath") (rootPath := "/var/www") (mws := [])
    (s := Server_method sample_value fmt_sample Server_chain POST "/items" boom []
            (Server_method sample_value fmt_sample Server_chain PUT "/items" boom []
               (httpserver_New silent_log (mkOpts 8080 false))));
    [apply sc_method, sc_method, sc_New|reflexivity].
Defined.

(** X10 at FILES("/static/*filepath", "/var/www"). *)
Lemma FILES_binds_GET_only_sample :
  ∃ s',
    Server_FILES sample_value fmt_sample Server_chain FileServer_empty sample_router_refuses
      "/static/*filepath" "/var/www" [] empty_server = Registered s' ∧
    (route_method <$> handlers s') = ["GET"] ∧
    bound s' "HEAD" "/static/*filepath" = [].
Proof.
  eexists. split; [reflexivity|].
  destruct (FILES_binds_GET_only sample_value fmt_sample Server_chain FileServer_empty
              sample_router_refuses "/static/*filepath" "/var/www" [] empty_server _ eq_refl)
    as (_ & Hh & _ & _ & Hb).
  split; [by rewrite Hh|]. by rewrite Hb.
Defined.

(** X13 at a channel, which the encoder refuses. *)
Lemma failed_ResponseJSON_has_sent_the_status_sample :
  let w := newResponseWriter (Foreign ∅ []) "id-1" "" in
  let w1 := (ResponseJSON sample_value json_sample http_Write_error
               "Sat, 31 Oct 2026 09:00:00 UTC" w StatusOK (of_dyn a_channel)).1 in
  json_sample (of_dyn a_channel) = inr "json: unsupported type: chan int" ∧
  status_sent (calls_of w1) = Some 200 ∧
  status_sent (calls_of (Response "Sat, 31 Oct 2026 09:00:01 UTC" w1 500 "encoding failed"))
  = Some 200.
Proof.
  split; [reflexivity|].
  destruct (failed_ResponseJSON_has_sent_the_status sample_value json_sample http_Write_error
              "Sat, 31 Oct 2026 09:00:00 UTC"
              (newResponseWriter (Foreign ∅ []) "id-1" "") StatusOK (of_dyn a_channel)
              "json: unsupported type: chan int" eq_refl eq_refl)
    as (_ & _ & Hs & Hl).
  split; [exact Hs|apply Hl].
Defined.

(** X15 at the two templates of the example, visited in either order. *)
Lemma RenderMultiHTML_visiting_order_sample :
  RenderMultiHTML sample_value (engine := fragment.engine (any sample_value))
    "main" example_templates [("frag", "X"); ("main", example_main)] (of_dyn (an_int 1)) []
  = inl "X".
Proof.
  apply (RenderMultiHTML_visiting_order sample_value (of_dyn (an_int 1)) "main"
           example_templates (map_to_list example_templates)).
  - reflexivity.
  - rewrite example_templates_list. apply perm_swap.
  - vm_compute. reflexivity.
Defined.

